(** * Intervue AI backend: session store, mode engine and turn coordinator

    A shallow embedding of
      - [backend/services/session_manager.py] (class [SessionManager]),
      - [backend/services/groq_service.py]    (class [GroqService]),
      - [backend/app.py]                      (the REST endpoints, class
                                               [ConnectionManager] and the
                                               event handlers),
    followed by the properties of the session lifecycle that are stated about
    them.

    Modelling conventions.
      - A Python [str] is a [string]; every [ascii] stands for the code point
        of the same number (code points below 256).
      - JSON data sent by a client (the [config] of a session, the payload of
        an event) and the mode-specific dictionary of a session are
        [gmap string value]; JSON numbers are integers.
      - [datetime.now().timestamp()] is an integer clock reading.  The clock,
        [uuid.uuid4] and the Groq HTTP client are oracles carried by the
        [world]: the k-th call of each returns the k-th value of its oracle.
      - A method is a computation [M A]: it takes the world and returns the
        new world together with either its result or the exception it raised.
        The lock of [SessionManager] and its cleanup thread are not modelled:
        methods run one at a time.
      - An event passed to [manager.send_json] is appended to the [outbox] of
        the world; whether the socket of the connection is still open is the
        business of [ConnectionManager] and is not modelled.
      - Python's [str()], used by the f-strings of the system prompts, is a
        parameter [py_str] of the functions that format values. *)

From Stdlib Require Import ZArith String Ascii List Lia DecimalString.
From stdpp Require Import base gmap list strings.

Set Warnings "-register-all".

Open Scope string_scope.
Open Scope list_scope.
Open Scope Z_scope.

(** ** Python strings *)

Module PyStr.

(** [str.isspace] on one character, for code points below 256. *)
Definition isspace (c : ascii) : bool :=
  let n := nat_of_ascii c in
  ((9 <=? n)%nat && (n <=? 13)%nat)
  || ((28 <=? n)%nat && (n <=? 32)%nat)
  || (n =? 133)%nat || (n =? 160)%nat.

Fixpoint lstrip (s : string) : string :=
  match s with
  | EmptyString => EmptyString
  | String c s' => if isspace c then lstrip s' else s
  end.

(** [rstrip] keeps a character when it is not a space or when something
    is kept after it. *)
Fixpoint rstrip (s : string) : string :=
  match s with
  | EmptyString => EmptyString
  | String c s' =>
      match rstrip s' with
      | EmptyString => if isspace c then EmptyString else String c EmptyString
      | r => String c r
      end
  end.

(** [s.strip()] *)
Definition strip (s : string) : string := rstrip (lstrip s).

(** [c in s] for a one-character [c]. *)
Fixpoint contains (c : ascii) (s : string) : bool :=
  match s with
  | EmptyString => false
  | String d s' => if Ascii.eqb c d then true else contains c s'
  end.

(** [s[:n]] *)
Fixpoint take (n : nat) (s : string) : string :=
  match n, s with
  | S n', String c s' => String c (take n' s')
  | _, _ => EmptyString
  end.

(** [len(s)] *)
Definition len (s : string) : Z := Z.of_nat (String.length s).

(** [not s]: the empty string is the only falsy one. *)
Definition is_empty (s : string) : bool :=
  match s with EmptyString => true | _ => false end.

Definition dq : string := String (ascii_of_nat 34) EmptyString.
Definition nl : string := String (ascii_of_nat 10) EmptyString.

End PyStr.

(** ** Python values and exceptions *)

Inductive value : Type :=
| VNone
| VBool (b : bool)
| VInt (n : Z)
| VStr (s : string)
| VList (l : list value)
| VDict (d : list (string * value)).

Inductive exn : Type :=
| TypeError
| AttributeError
| UpstreamError (msg : string)       (* raised inside the Groq client *)
| Exception (msg : string)           (* [raise Exception(msg)] *)
| AIServiceError (cause : exn).      (* [Exception(f'AI service error: {str(e)}')] *)

(** [d.get(k, default)] *)
Definition dict_get (d : gmap string value) (k : string) (dflt : value) : value :=
  default dflt (d !! k).

(** [v + 1]: defined on [int] and on [bool] (a subclass of [int]). *)
Definition py_add1 (v : value) : exn + Z :=
  match v with
  | VInt n => inr (n + 1)
  | VBool b => inr ((if b then 1 else 0) + 1)
  | _ => inl TypeError
  end.

(** [min(a, b)] for an [int] [a]: [b] when [b < a], else [a]; the comparison
    raises [TypeError] unless [b] is a number. *)
Definition py_min_int (a : Z) (b : value) : exn + value :=
  match b with
  | VInt n => inr (if n <? a then VInt n else VInt a)
  | VBool c => inr (if (if c then 1 else 0) <? a then VBool c else VInt a)
  | _ => inl TypeError
  end.

(** [l[-n:]] for [n > 0] *)
Definition slice_last {A} (n : nat) (l : list A) : list A :=
  drop (length l - n)%nat l.

(** ** Data model *)

(** An entry of [conversation_history]. *)
Record turn := Turn { role : string; text : string; timestamp : Z }.

(** A session dictionary of [SessionManager.sessions]. *)
Record session := Session {
  session_id : string;
  mode : string;
  conversation_history : list turn;
  mode_specific_data : gmap string value;
  created_at : Z;
  last_activity : Z
}.

(** Item assignments on a session dictionary. *)
Definition set_mode (m : string) (s : session) : session :=
  Session (session_id s) m (conversation_history s) (mode_specific_data s)
          (created_at s) (last_activity s).
Definition set_conversation_history (h : list turn) (s : session) : session :=
  Session (session_id s) (mode s) h (mode_specific_data s)
          (created_at s) (last_activity s).
Definition set_mode_specific_data (d : gmap string value) (s : session) : session :=
  Session (session_id s) (mode s) (conversation_history s) d
          (created_at s) (last_activity s).
Definition set_last_activity (t : Z) (s : session) : session :=
  Session (session_id s) (mode s) (conversation_history s) (mode_specific_data s)
          (created_at s) t.

(** A chat message sent to the Groq API. *)
Record message := Message { msg_role : string; msg_content : string }.

(** What [client.chat.completions.create] does with a request: it raises, or
    it returns a completion whose first choice has this [content]
    ([None] is possible). *)
Inductive completion :=
| ApiRaises (msg : string)
| ApiContent (content : option string).

(** The dictionary returned by [GroqService.generate_response]. *)
Record response := Response {
  resp_text : string;
  resp_mode_data : gmap string value
}.

(** The dictionary returned by [GroqService.text_to_speech]. *)
Record audio := Audio { audio_text : string; audio_format : string; audio_duration : Z }.

(** Outbound events of [handle_text_message]; the [error] field of the error
    event carries the exception in place of [str(e)]. *)
Inductive event :=
| AiThinking (status : string)
| AiResponse (txt : string) (au : audio) (modeData : gmap string value) (ts : Z)
| ErrorEvent (msg : string) (error : exn).

(** The process: oracles, the session store, the connection registry's
    session mapping, and the traces of what was sent. *)
Record world := World {
  clock : nat -> Z;               (* k-th reading of the wall clock *)
  ticks : nat;                    (* readings made so far *)
  uuid4 : nat -> string;          (* k-th identifier generated *)
  uuids : nat;                    (* identifiers generated so far *)
  client : option (nat -> list message -> completion);
                                  (* [GroqService.client]; the k-th request *)
  requests : list (list message); (* requests made so far, oldest first *)
  sessions : gmap string session; (* [SessionManager.sessions] *)
  connection_sessions : gmap string string;
  outbox : list (string * event)  (* [manager.send_json] calls, oldest first *)
}.

Definition set_ticks (n : nat) (w : world) : world :=
  World (clock w) n (uuid4 w) (uuids w) (client w) (requests w) (sessions w)
        (connection_sessions w) (outbox w).
Definition set_uuids (n : nat) (w : world) : world :=
  World (clock w) (ticks w) (uuid4 w) n (client w) (requests w) (sessions w)
        (connection_sessions w) (outbox w).
Definition set_requests (r : list (list message)) (w : world) : world :=
  World (clock w) (ticks w) (uuid4 w) (uuids w) (client w) r (sessions w)
        (connection_sessions w) (outbox w).
Definition set_sessions (s : gmap string session) (w : world) : world :=
  World (clock w) (ticks w) (uuid4 w) (uuids w) (client w) (requests w) s
        (connection_sessions w) (outbox w).
Definition set_outbox (o : list (string * event)) (w : world) : world :=
  World (clock w) (ticks w) (uuid4 w) (uuids w) (client w) (requests w)
        (sessions w) (connection_sessions w) o.

(** ** The monad of methods: state and exceptions *)

Definition M (A : Type) : Type := world -> (exn + A) * world.

Definition ret {A} (a : A) : M A := fun w => (inr a, w).
Definition raise {A} (e : exn) : M A := fun w => (inl e, w).
Definition bind {A B} (m : M A) (k : A -> M B) : M B :=
  fun w => match m w with
           | (inr a, w') => k a w'
           | (inl e, w') => (inl e, w')
           end.
(** [try: body except Exception as e: handler(e)] *)
Definition try_except {A} (body : M A) (handler : exn -> M A) : M A :=
  fun w => match body w with
           | (inr a, w') => (inr a, w')
           | (inl e, w') => handler e w'
           end.
Definition lift {A} (r : exn + A) : M A := fun w => (r, w).
Definition gets {A} (f : world -> A) : M A := fun w => (inr (f w), w).
Definition modify (f : world -> world) : M unit := fun w => (inr tt, f w).

Notation "'do' x <- m ; k" := (bind m (fun x => k))
  (at level 10, x name, m at level 100, k at level 200).
Notation "m ;; k" := (bind m (fun _ => k))
  (at level 100, k at level 200, right associativity).

(** [datetime.now().timestamp()] *)
Definition now : M Z :=
  fun w => (inr (clock w (ticks w)), set_ticks (S (ticks w)) w).

(** [str(uuid.uuid4())] *)
Definition new_uuid : M string :=
  fun w => (inr (uuid4 w (uuids w)), set_uuids (S (uuids w)) w).

(** ** services/session_manager.py *)

Module SessionManager.

Definition _initialize_mode_data (mode : string) (config : gmap string value)
  : gmap string value :=
  if String.eqb mode "interview" then
    {[ "role" := dict_get config "role" (VStr "Software Engineer");
       "company" := dict_get config "company" (VStr "Tech Company");
       "question_index" := VInt 0;
       "total_questions" := dict_get config "totalQuestions" (VInt 5);
       "scores" := VList [];
       "evaluations" := VList [] ]}
  else if String.eqb mode "debate" then
    {[ "topic" := dict_get config "topic" (VStr "AI in society");
       "stance" := dict_get config "stance" (VStr "pro");
       "arguments_made" := VList [];
       "counter_arguments" := VList [] ]}
  else
    {[ "user_preferences" := dict_get config "preferences" (VDict []);
       "emotional_tone" := VStr "friendly" ]}.

(** [config = None] stands for the omitted argument. *)
Definition create_session (mode : string) (config : option (gmap string value))
  : M string :=
  let config := default ∅ config in
  do session_id <- new_uuid;
  let data := _initialize_mode_data mode config in
  do created <- now;
  do active <- now;
  let session := Session session_id mode [] data created active in
  modify (fun w => set_sessions (<[session_id := session]> (sessions w)) w) ;;
  ret session_id.

Definition get_session (session_id : string) : M (option session) :=
  gets (fun w => sessions w !! session_id).

Definition add_message (session_id role text : string) : M unit :=
  do session <- gets (fun w => sessions w !! session_id);
  match session with
  | None => ret tt
  | Some s =>
      do stamp <- now;
      let s := set_conversation_history
                 (conversation_history s ++ [Turn role text stamp]) s in
      do active <- now;
      let s := set_last_activity active s in
      let s :=
        if (30 <? length (conversation_history s))%nat
        then set_conversation_history (slice_last 30 (conversation_history s)) s
        else s in
      modify (fun w => set_sessions (<[session_id := s]> (sessions w)) w)
  end.

Definition change_mode (session_id new_mode : string)
    (config : option (gmap string value)) : M unit :=
  let config := default ∅ config in
  do session <- gets (fun w => sessions w !! session_id);
  match session with
  | None => ret tt
  | Some s =>
      let s := set_mode new_mode s in
      let s := set_mode_specific_data (_initialize_mode_data new_mode config) s in
      do active <- now;
      let s := set_last_activity active s in
      modify (fun w => set_sessions (<[session_id := s]> (sessions w)) w)
  end.

(** [dict.update]: the keys of [mode_data] win. *)
Definition update_mode_data (session_id : string) (mode_data : gmap string value)
  : M unit :=
  do session <- gets (fun w => sessions w !! session_id);
  match session with
  | None => ret tt
  | Some s =>
      let s := set_mode_specific_data (mode_data ∪ mode_specific_data s) s in
      modify (fun w => set_sessions (<[session_id := s]> (sessions w)) w)
  end.

Definition delete_session (session_id : string) : M unit :=
  modify (fun w =>
    if decide (is_Some (sessions w !! session_id))
    then set_sessions (delete session_id (sessions w)) w
    else w).

(** The identifiers collected by the first loop.  They are distinct keys of
    the dictionary, so the order of the second loop does not matter and no
    [del] fails. *)
Definition session_ids_to_delete (current max_age : Z)
    (ss : gmap string session) : list string :=
  (filter (fun p => current - last_activity p.2 > max_age) (map_to_list ss)).*1.

Definition cleanup_old_sessions (max_age : Z) : M unit :=
  do current <- now;
  modify (fun w =>
    set_sessions
      (foldl (fun ss session_id => delete session_id ss) (sessions w)
             (session_ids_to_delete current max_age (sessions w))) w).

End SessionManager.

(** ** services/groq_service.py *)

Module GroqService.

(** The lines of a triple-quoted literal, joined by newlines. *)
Fixpoint unlines (ls : list string) : string :=
  match ls with
  | [] => EmptyString
  | [l] => l
  | l :: ls' => l +:+ PyStr.nl +:+ unlines ls'
  end.

Definition chat_prompt : string :=
  unlines [
    "You are a friendly, empathetic human companion having a natural conversation. ";
    "- Speak naturally with occasional filler words like " +:+ PyStr.dq +:+ "um"
      +:+ PyStr.dq +:+ ", " +:+ PyStr.dq +:+ "well" +:+ PyStr.dq +:+ ", "
      +:+ PyStr.dq +:+ "you know" +:+ PyStr.dq;
    "- Show genuine interest and emotions";
    "- Ask follow-up questions";
    "- Keep responses conversational and concise (2-3 sentences usually)";
    "- Remember previous context and refer back to it";
    "- Be warm, supportive, and engaging" ].

Definition interview_prompt (role company total_questions number : string) : string :=
  unlines [
    "You are a professional interviewer for the role of " +:+ role +:+ " at "
      +:+ company +:+ ".";
    "";
    "Your responsibilities:";
    "1. Ask " +:+ total_questions +:+ " progressively challenging questions";
    "2. Listen carefully to each answer";
    "3. Provide brief acknowledgment after each answer";
    "4. Ask relevant follow-up questions if the answer is incomplete";
    "5. After all questions, provide constructive feedback";
    "";
    "Current question number: " +:+ number +:+ "/" +:+ total_questions;
    "";
    "Interview structure:";
    "- Start with an easy warm-up question";
    "- Progress to technical/behavioral questions";
    "- End with a challenging scenario question";
    "- Conclude with overall feedback";
    "";
    "Keep your questions clear, professional, and one at a time." ].

Definition debate_prompt (topic stance : string) : string :=
  unlines [
    "You are participating in a formal debate on the topic: " +:+ PyStr.dq
      +:+ topic +:+ PyStr.dq +:+ ".";
    "Your stance: " +:+ stance;
    "";
    "Debate guidelines:";
    "- Present logical, well-reasoned arguments";
    "- Use facts and examples when possible";
    "- Counter the opponent's points respectfully";
    "- Stay on topic";
    "- Be persuasive but fair";
    "- Acknowledge valid points from the other side";
    "- Build on previous arguments";
    "- Keep responses focused (3-4 sentences)";
    "";
    "Remember: This is a friendly debate focused on intellectual discourse." ].

(** [_process_mode_logic] does not read [user_message]. *)
Definition _process_mode_logic (mode : string) (mode_data : gmap string value)
    (user_message ai_response : string) : exn + gmap string value :=
  if String.eqb mode "interview" then
    if PyStr.contains "?"%char ai_response then
      match py_add1 (dict_get mode_data "question_index" (VInt 0)) with
      | inl e => inl e
      | inr next =>
          match py_min_int next (dict_get mode_data "total_questions" (VInt 5)) with
          | inl e => inl e
          | inr q => inr {[ "question_index" := q ]}
          end
      end
    else inr ∅
  else if String.eqb mode "debate" then
    match dict_get mode_data "arguments_made" (VList []) with
    | VList made =>
        inr {[ "arguments_made" := VList (made ++ [VStr (PyStr.take 50 ai_response)]) ]}
    | _ => inl TypeError
    end
  else inr ∅.

Definition text_to_speech (text : string) : audio :=
  Audio text "text" (PyStr.len text * 50).

Section Builtins.

(** Python's [str()] of a value, as the f-strings apply it. *)
Variable py_str : value -> string.

Definition _get_system_prompt (mode : string) (mode_data : gmap string value)
  : exn + string :=
  if String.eqb mode "chat" then inr chat_prompt
  else if String.eqb mode "interview" then
    let role := dict_get mode_data "role" (VStr "Software Engineer") in
    let company := dict_get mode_data "company" (VStr "a leading tech company") in
    let total_questions := dict_get mode_data "total_questions" (VInt 5) in
    let question_index := dict_get mode_data "question_index" (VInt 0) in
    match py_add1 question_index with
    | inl e => inl e
    | inr number =>
        inr (interview_prompt (py_str role) (py_str company)
               (py_str total_questions) (py_str (VInt number)))
    end
  else if String.eqb mode "debate" then
    let topic := dict_get mode_data "topic" (VStr "AI in society") in
    let stance := dict_get mode_data "stance" (VStr "PRO") in
    inr (debate_prompt (py_str topic) (py_str stance))
  else inr "You are a helpful AI assistant.".

(** The entry of [messages] built from one turn of the history. *)
Definition history_message (msg : turn) : message :=
  Message (if String.eqb (role msg) "user" then "user" else "assistant") (text msg).

(** [self.client.chat.completions.create(messages=...)] followed by
    [.choices[0].message.content]. *)
Definition create_completion (api : nat -> list message -> completion)
    (messages : list message) : M (option string) :=
  do k <- gets (fun w => length (requests w));
  modify (fun w => set_requests (requests w ++ [messages]) w) ;;
  match api k messages with
  | ApiRaises msg => raise (UpstreamError msg)
  | ApiContent c => ret c
  end.

Definition generate_response (user_message : string)
    (conversation_history : list turn) (mode : string)
    (mode_data : gmap string value) : M response :=
  do client <- gets client;
  match client with
  | None => raise (Exception "Groq service not initialized. Check your API key.")
  | Some api =>
      try_except
        (do system_prompt <- lift (_get_system_prompt mode mode_data);
         let messages := [Message "system" system_prompt] in
         let recent_history := slice_last 10 conversation_history in
         let messages := (messages ++ map history_message recent_history)%list in
         let messages := (messages ++ [Message "user" user_message])%list in
         do content <- create_completion api messages;
         match content with
         | None => raise AttributeError
         | Some c =>
             let response_text := PyStr.strip c in
             do mode_data_update <-
               lift (_process_mode_logic mode mode_data user_message response_text);
             ret (Response response_text mode_data_update)
         end)
        (fun e => raise (AIServiceError e))
  end.

End Builtins.

End GroqService.

(** ** app.py *)

Module App.

(** The body of a [POST /api/session/start] request. *)
Record start_request := StartRequest {
  req_mode : option string;
  req_config : option (gmap string value)
}.

Record start_reply := StartReply {
  reply_success : bool;
  reply_sessionId : string;
  reply_mode : string;
  reply_message : string
}.

Definition start_session (data : start_request) : M start_reply :=
  let mode := default "chat" (req_mode data) in
  let config := default ∅ (req_config data) in
  do session_id <- SessionManager.create_session mode (Some config);
  ret (StartReply true session_id mode "Session created successfully").

(** [manager.send_json(client_id, data)], recorded as handed over. *)
Definition send_json (client_id : string) (data : event) : M unit :=
  modify (fun w => set_outbox (outbox w ++ [(client_id, data)]) w).

Section Builtins.

Variable py_str : value -> string.

(** [data.get('text', '').strip()] *)
Definition text_of (data : gmap string value) : exn + string :=
  match data !! "text" with
  | None => inr (PyStr.strip "")
  | Some (VStr s) => inr (PyStr.strip s)
  | Some _ => inl AttributeError
  end.

Definition handle_text_message (client_id : string) (data : gmap string value)
  : M unit :=
  try_except
    (do mapped <- gets (fun w => connection_sessions w !! client_id);
     match mapped with
     | None => ret tt
     | Some session_id =>
         do text <- lift (text_of data);
         if PyStr.is_empty text then ret tt
         else
           SessionManager.add_message session_id "user" text ;;
           do session <- SessionManager.get_session session_id;
           send_json client_id (AiThinking "generating") ;;
           do ai_response <-
             match session with
             | None => raise TypeError
             | Some s =>
                 GroqService.generate_response py_str text
                   (conversation_history s) (mode s) (mode_specific_data s)
             end;
           (if decide (resp_mode_data ai_response = ∅) then ret tt
            else SessionManager.update_mode_data session_id
                   (resp_mode_data ai_response)) ;;
           let audio_data := GroqService.text_to_speech (resp_text ai_response) in
           SessionManager.add_message session_id "ai" (resp_text ai_response) ;;
           do stamp <- now;
           send_json client_id
             (AiResponse (resp_text ai_response) audio_data
                (resp_mode_data ai_response) (stamp * 1000))
     end)
    (fun e => send_json client_id (ErrorEvent "Error processing your message" e)).

End Builtins.

End App.

(** ** Scenario drivers and specification-side definitions *)

(** A run of [add_message] calls on one session, given as [(role, text)]. *)
Fixpoint add_messages (session_id : string) (calls : list (string * string)) : M unit :=
  match calls with
  | [] => ret tt
  | (r, t) :: calls' =>
      SessionManager.add_message session_id r t ;; add_messages session_id calls'
  end.

(** The turns those calls create when the first of them makes reading
    number [k] of the clock: every call reads the clock twice. *)
Fixpoint stamped (clk : nat -> Z) (k : nat) (calls : list (string * string)) : list turn :=
  match calls with
  | [] => []
  | (r, t) :: calls' => Turn r t (clk k) :: stamped clk (S (S k)) calls'
  end.

(** The session dictionary after one [add_message] that read [stamp] and
    then [active] from the clock. *)
Definition appended (r t : string) (stamp active : Z) (s : session) : session :=
  Session (session_id s) (mode s)
          (slice_last 30 (conversation_history s ++ [Turn r t stamp]))
          (mode_specific_data s) (created_at s) active.

(** The chat-shaped dictionary built by the last branch of
    [_initialize_mode_data]. *)
Definition chat_context (config : gmap string value) : gmap string value :=
  {[ "user_preferences" := dict_get config "preferences" (VDict []);
     "emotional_tone" := VStr "friendly" ]}.

(** The mode data after a successful turn whose reply is [ai_response]:
    [handle_text_message] merges the patch of [_process_mode_logic] with
    [update_mode_data] (an empty patch is skipped, which merges nothing). *)
Definition post_turn (mode : string) (mode_data : gmap string value)
    (user_message ai_response : string) : exn + gmap string value :=
  match GroqService._process_mode_logic mode mode_data user_message ai_response with
  | inl e => inl e
  | inr patch => inr (patch ∪ mode_data)
  end.

(** Successive interview turns, given as [(user_message, ai_response)]. *)
Fixpoint interview_turns (mode_data : gmap string value)
    (turns : list (string * string)) : exn + gmap string value :=
  match turns with
  | [] => inr mode_data
  | (u, a) :: turns' =>
      match post_turn "interview" mode_data u a with
      | inl e => inl e
      | inr mode_data' => interview_turns mode_data' turns'
      end
  end.

(** How many of the replies contain a question mark. *)
Fixpoint questions (turns : list (string * string)) : Z :=
  match turns with
  | [] => 0
  | (_, a) :: turns' =>
      (if PyStr.contains "?"%char a then 1 else 0) + questions turns'
  end.

(** The request [generate_response] sends for a system prompt, a history and
    the text of the user. *)
Definition request_for (system_prompt : string) (history : list turn)
    (user_message : string) : list message :=
  Message "system" system_prompt
  :: map GroqService.history_message (slice_last 10 history)
  ++ [Message "user" user_message].

(** What [generate_response] returns or raises once the API has answered. *)
Definition outcome_of (answer : completion) (mode : string)
    (mode_data : gmap string value) (user_message : string) : exn + response :=
  match answer with
  | ApiRaises msg => inl (AIServiceError (UpstreamError msg))
  | ApiContent None => inl (AIServiceError AttributeError)
  | ApiContent (Some c) =>
      match GroqService._process_mode_logic mode mode_data user_message (PyStr.strip c) with
      | inl e => inl (AIServiceError e)
      | inr patch => inr (Response (PyStr.strip c) patch)
      end
  end.

(** The session after the user turn of the invocation has been appended. *)
Definition with_user_turn (text : string) (w : world) (s : session) : session :=
  appended "user" text (clock w (ticks w)) (clock w (S (ticks w))) s.

(** The call of [generate_response] that the invocation makes. *)
Definition llm_call (py_str : value -> string) (text : string) (w : world)
    (s : session) : M response :=
  GroqService.generate_response py_str text
    (conversation_history (with_user_turn text w s)) (mode s) (mode_specific_data s).

(** The session after a successful turn: the patch merged and the reply
    appended. *)
Definition with_ai_turn (text : string) (w : world) (s : session) (r : response)
  : session :=
  appended "ai" (resp_text r) (clock w (S (S (ticks w)))) (clock w (S (S (S (ticks w)))))
    (set_mode_specific_data (resp_mode_data r ∪ mode_specific_data s)
       (with_user_turn text w s)).

(** ** Concrete worlds of the examples *)

(** A clock that reads 1000, 1001, 1002, ... *)
Definition demo_clock (k : nat) : Z := 1000 + Z.of_nat k.

(** Identifiers ["session-A"], ["session-B"], ... *)
Definition demo_uuid4 (k : nat) : string :=
  "session-" +:+ String (ascii_of_nat (65 + k)) EmptyString.

(** A chat session created at time 1000 and not used since. *)
Definition demo_session : session :=
  Session "s1" "chat" []
          (SessionManager._initialize_mode_data "chat" ∅) 1000 1000.

(** One session ["s1"], bound to connection ["c1"]; no Groq client. *)
Definition demo_world : world :=
  World demo_clock 0 demo_uuid4 0 None [] {[ "s1" := demo_session ]}
        {[ "c1" := "s1" ]} [].

(** Forty calls with the texts ["A"], ["B"], ... in this order. *)
Definition forty_calls : list (string * string) :=
  map (fun i => ("user", String (ascii_of_nat (65 + i)) EmptyString)) (seq 0 40).

(** Three sessions seen by a reaper that reads 5000 from the clock: last
    active 3601, 3600 and 100 seconds before. *)
Definition reaper_world : world :=
  World (fun _ => 5000) 0 demo_uuid4 0 None []
        {[ "old" := Session "old" "chat" [] ∅ 1000 1399;
           "edge" := Session "edge" "chat" [] ∅ 1000 1400;
           "young" := Session "young" "chat" [] ∅ 1000 4900 ]}
        ∅ [].

(** The world of [demo_world] fifty clock readings later: the clock now
    reads 1050, and session ["s1"] was last active at 1000. *)
Definition later_world : world := set_ticks 50 demo_world.

(** The mode data of a fresh interview session with the default options:
    question 0 of 5. *)
Definition fresh_interview : gmap string value :=
  SessionManager._initialize_mode_data "interview" ∅.

(** The mode data of a fresh interview session whose config asks for
    [totalQuestions = -3]. *)
Definition negative_interview : gmap string value :=
  SessionManager._initialize_mode_data "interview" {[ "totalQuestions" := VInt (-3) ]}.

(** Three replies with a question mark, then one without. *)
Definition three_questions : list (string * string) :=
  [("hi", "Tell me about yourself?"); ("ok", "Why this role?");
   ("well", "What is a mutex?")].

(** [str()] on the scalars; the examples format no list and no dictionary. *)
Definition scalar_str (v : value) : string :=
  match v with
  | VNone => "None"
  | VBool b => if b then "True" else "False"
  | VInt n => DecimalString.NilZero.string_of_int (Z.to_int n)
  | VStr s => s
  | VList _ | VDict _ => ""
  end.

(** [demo_world] with a Groq client whose every request raises. *)
Definition failing_world : world :=
  World demo_clock 0 demo_uuid4 0
        (Some (fun _ _ => ApiRaises "rate limit exceeded")) []
        {[ "s1" := demo_session ]} {[ "c1" := "s1" ]} [].

(** [demo_world] with a Groq client whose first request raises and whose
    later requests are answered. *)
Definition flaky_world : world :=
  World demo_clock 0 demo_uuid4 0
        (Some (fun k _ => if (k =? 0)%nat then ApiRaises "rate limit exceeded"
                          else ApiContent (Some " I am fine. And you? "))) []
        {[ "s1" := demo_session ]} {[ "c1" := "s1" ]} [].

(** Two [text-message] events. *)
Definition hello_event : gmap string value :=
  {[ "type" := VStr "text-message"; "text" := VStr " hello " ]}.

Definition again_event : gmap string value :=
  {[ "type" := VStr "text-message"; "text" := VStr "are you there" ]}.

(** The exception [generate_response] raises when the client raised. *)
Definition rate_limited : exn := AIServiceError (UpstreamError "rate limit exceeded").

(** ** services/groq_service.py: greeting and mode transition *)

Module Greeting.

(** The dictionary returned by [generate_greeting] and by
    [generate_mode_transition]. *)
Record utterance := Utterance { utt_text : string; utt_mode : string }.

(** [is_initialized] *)
Definition is_initialized : M bool :=
  gets (fun w => match client w with Some _ => true | None => false end).

Definition hello : string := "Hello! How can I help you today?".

Section Builtins.

Variable py_str : value -> string.

(** The dictionary [prompts] of [generate_greeting], read with
    [prompts.get(mode, prompts['chat'])]. *)
Definition prompts_get (mode : string) (config : gmap string value) : string :=
  let chat :=
    "You're starting a friendly conversation. Greet warmly and ask how they're doing. Keep it brief and natural (1-2 sentences)." in
  let interview :=
    "You're starting an interview for a "
    +:+ py_str (dict_get config "role" (VStr "Software Engineer"))
    +:+ " position. Introduce yourself briefly, make the candidate comfortable, and ask your first question. Keep it professional but warm." in
  let debate :=
    "You're starting a debate on " +:+ PyStr.dq
    +:+ py_str (dict_get config "topic" (VStr "AI in society")) +:+ PyStr.dq
    +:+ ". Your stance is " +:+ py_str (dict_get config "stance" (VStr "PRO"))
    +:+ ". Greet your debate opponent, state the topic clearly, and present your opening statement (2-3 sentences)." in
  if String.eqb mode "chat" then chat
  else if String.eqb mode "interview" then interview
  else if String.eqb mode "debate" then debate
  else chat.

(** The dictionary [fallbacks], read with
    [fallbacks.get(mode, fallbacks['chat'])]. *)
Definition fallbacks_get (mode : string) (config : gmap string value) : string :=
  let chat := "Hey there! How's it going?" in
  let interview :=
    "Hello! Thanks for joining today. I'm excited to learn more about you. Let's start with: Can you tell me a bit about yourself and your experience?" in
  let debate :=
    "Great to have this debate with you on "
    +:+ py_str (dict_get config "topic" (VStr "AI in society"))
    +:+ ". I'm taking the " +:+ py_str (dict_get config "stance" (VStr "PRO"))
    +:+ " stance. Let me start by presenting my opening argument." in
  if String.eqb mode "chat" then chat
  else if String.eqb mode "interview" then interview
  else if String.eqb mode "debate" then debate
  else chat.

(** [content or 'Hello! How can I help you today?'] *)
Definition content_or_hello (content : option string) : string :=
  match content with
  | None => hello
  | Some c => if PyStr.is_empty c then hello else c
  end.

(** [config] is the dictionary the caller passes; the system prompt is
    built from it as if it were the mode data. *)
Definition generate_greeting (mode : string) (config : gmap string value)
  : M utterance :=
  do client <- gets client;
  match client with
  | None => ret (Utterance hello mode)
  | Some api =>
      let user_prompt := prompts_get mode config in
      try_except
        (do system_prompt <- lift (GroqService._get_system_prompt py_str mode config);
         do content <-
           GroqService.create_completion api
             [Message "system" system_prompt;
              Message "user" ("Starting conversation: " +:+ user_prompt)];
         let text := content_or_hello content in
         ret (Utterance (PyStr.strip text) mode))
        (fun e => ret (Utterance (fallbacks_get mode config) mode))
  end.

(** The dictionary [transitions], read with
    [transitions.get(new_mode, 'Mode changed successfully!')]. *)
Definition generate_mode_transition (new_mode : string) (config : gmap string value)
  : utterance :=
  let chat := "Great! Let's just have a casual chat. What's on your mind?" in
  let interview :=
    "Perfect! Let's switch to interview mode. I'll be interviewing you for a "
    +:+ py_str (dict_get config "role" (VStr "Software Engineer"))
    +:+ " role. Ready to begin?" in
  let debate :=
    "Excellent! Let's debate " +:+ PyStr.dq
    +:+ py_str (dict_get config "topic" (VStr "an interesting topic")) +:+ PyStr.dq
    +:+ ". I'll take the " +:+ py_str (dict_get config "stance" (VStr "PRO"))
    +:+ " position. Let's hear your opening statement." in
  Utterance
    (if String.eqb new_mode "chat" then chat
     else if String.eqb new_mode "interview" then interview
     else if String.eqb new_mode "debate" then debate
     else "Mode changed successfully!")
    new_mode.

End Builtins.

End Greeting.

(** ** app.py: the other event handlers and the REST endpoints *)

(** The events of [handle_init_session], [handle_change_mode] and
    [handle_stop_ai].  Their [ai-response] has no [modeData] key; an error
    whose message is [str(e)] carries the exception. *)
Inductive frame :=
| SessionReady (sessionId mode greeting : string)
| AiResponseFrame (txt : string) (au : audio) (ts : Z)
| ModeChanged (mode message : string)
| AiStopped
| ErrorMessage (message : string)
| ErrorOf (e : exn).

Definition set_connection_sessions (c : gmap string string) (w : world) : world :=
  World (clock w) (ticks w) (uuid4 w) (uuids w) (client w) (requests w)
        (sessions w) c (outbox w).

(** Handlers that send frames: a method of [M] that also yields the
    [manager.send_json] calls it made, oldest first. *)
Definition Hm (A : Type) : Type := world -> ((exn + A) * world) * list (string * frame).

Definition hret {A} (a : A) : Hm A := fun w => ((inr a, w), []).
Definition hbind {A B} (m : Hm A) (k : A -> Hm B) : Hm B :=
  fun w => match m w with
           | ((inr a, w'), out) =>
               match k a w' with
               | (r, out') => (r, out ++ out')
               end
           | ((inl e, w'), out) => ((inl e, w'), out)
           end.
Definition htry {A} (body : Hm A) (handler : exn -> Hm A) : Hm A :=
  fun w => match body w with
           | ((inr a, w'), out) => ((inr a, w'), out)
           | ((inl e, w'), out) =>
               match handler e w' with
               | (r, out') => (r, out ++ out')
               end
           end.
Definition hlift {A} (m : M A) : Hm A := fun w => (m w, []).
Definition hsend (client_id : string) (data : frame) : Hm unit :=
  fun w => ((inr tt, w), [(client_id, data)]).

Notation "'hdo' x <- m ; k" := (hbind m (fun x => k))
  (at level 10, x name, m at level 100, k at level 200).
Notation "m ;;; k" := (hbind m (fun _ => k))
  (at level 100, k at level 200, right associativity).

Module Handlers.

(** The payload of an [init-session] event: each key may be missing. *)
Record init_data := InitData {
  init_sessionId : option string;
  init_mode : option string;
  init_config : option (gmap string value)
}.

(** The payload of a [change-mode] event or of a mode request; the mode is
    a string. *)
Record mode_request := ModeRequest {
  chg_mode : string;
  chg_config : option (gmap string value)
}.

(** [session_id and session_manager.get_session(session_id)] as a
    condition: the identifier is a non-empty string of a stored session. *)
Definition known_session (session_id : option string) : M bool :=
  match session_id with
  | None => ret false
  | Some sid =>
      if PyStr.is_empty sid then ret false
      else
        do session <- SessionManager.get_session sid;
        ret (match session with Some _ => true | None => false end)
  end.

Section Builtins.

Variable py_str : value -> string.

Definition handle_init_session (client_id : string) (data : init_data) : Hm unit :=
  htry
    (let session_id := init_sessionId data in
     let mode := default "chat" (init_mode data) in
     let config := default ∅ (init_config data) in
     hdo known <- hlift (known_session session_id);
     hdo session_id <-
       (if known then hret (default "" session_id)
        else hlift (SessionManager.create_session mode (Some config)));
     hlift (modify (fun w => set_connection_sessions
                     (<[client_id := session_id]> (connection_sessions w)) w)) ;;;
     hdo greeting <- hlift (Greeting.generate_greeting py_str mode config);
     let audio_data := GroqService.text_to_speech (Greeting.utt_text greeting) in
     hlift (SessionManager.add_message session_id "ai" (Greeting.utt_text greeting)) ;;;
     hsend client_id (SessionReady session_id mode (Greeting.utt_text greeting)) ;;;
     hdo stamp <- hlift now;
     hsend client_id
       (AiResponseFrame (Greeting.utt_text greeting) audio_data (stamp * 1000)))
    (fun e => hsend client_id (ErrorOf e)).

Definition handle_change_mode (client_id : string) (data : mode_request) : Hm unit :=
  htry
    (hdo mapped <- hlift (gets (fun w => connection_sessions w !! client_id));
     match mapped with
     | None => hsend client_id (ErrorMessage "No active session")
     | Some session_id =>
         let mode := chg_mode data in
         let config := default ∅ (chg_config data) in
         hlift (SessionManager.change_mode session_id mode (Some config)) ;;;
         let transition := Greeting.generate_mode_transition py_str mode config in
         let audio_data := GroqService.text_to_speech (Greeting.utt_text transition) in
         hlift (SessionManager.add_message session_id "ai"
                  (Greeting.utt_text transition)) ;;;
         hsend client_id (ModeChanged mode (Greeting.utt_text transition)) ;;;
         hdo stamp <- hlift now;
         hsend client_id
           (AiResponseFrame (Greeting.utt_text transition) audio_data (stamp * 1000))
     end)
    (fun e => hsend client_id (ErrorOf e)).

End Builtins.

Definition handle_stop_ai (client_id : string) : Hm unit :=
  hsend client_id AiStopped.

(** [HTTPException(status_code, detail)] *)
Record http_error := HTTPException { status_code : Z; detail : string }.

Record mode_reply := ModeReply {
  mr_success : bool;
  mr_sessionId : string;
  mr_mode : string;
  mr_message : string
}.

Record history_reply := HistoryReply {
  hr_success : bool;
  hr_history : list turn;
  hr_mode : string
}.

(** [POST /api/session/{session_id}/mode]; the methods of the store it
    calls do not raise. *)
Definition change_session_mode (session_id : string) (data : mode_request) (w : world)
  : (http_error + mode_reply) * world :=
  let mode := chg_mode data in
  let config := default ∅ (chg_config data) in
  match sessions w !! session_id with
  | None => (inl (HTTPException 404 "Session not found"), w)
  | Some _ =>
      (inr (ModeReply true session_id mode ("Mode changed to " +:+ mode)),
       (SessionManager.change_mode session_id mode (Some config) w).2)
  end.

(** [GET /api/session/{session_id}/history] *)
Definition get_session_history (session_id : string) (w : world)
  : (http_error + history_reply) * world :=
  match sessions w !! session_id with
  | None => (inl (HTTPException 404 "Session not found"), w)
  | Some s => (inr (HistoryReply true (conversation_history s) (mode s)), w)
  end.

End Handlers.

(** ** app.py: class ConnectionManager *)

Module ConnectionManager.

Section Payload.

(** The JSON payloads; a [WebSocket] object is a number. *)
Variable json : Type.

Record manager := Manager {
  active_connections : gmap string nat;
  connection_sessions : gmap string string;
  accepted : list nat;             (* [websocket.accept()] calls, oldest first *)
  delivered : list (nat * json)    (* [websocket.send_json] calls, oldest first *)
}.

(** [ConnectionManager()] *)
Definition init : manager := Manager ∅ ∅ [] [].

Definition connect (websocket : nat) (connection_id : string) (m : manager) : manager :=
  Manager (<[connection_id := websocket]> (active_connections m))
          (connection_sessions m) (accepted m ++ [websocket]) (delivered m).

Definition disconnect (connection_id : string) (m : manager) : manager :=
  let active :=
    if decide (is_Some (active_connections m !! connection_id))
    then delete connection_id (active_connections m) else active_connections m in
  let bound :=
    if decide (is_Some (connection_sessions m !! connection_id))
    then delete connection_id (connection_sessions m) else connection_sessions m in
  Manager active bound (accepted m) (delivered m).

Definition send_json (connection_id : string) (data : json) (m : manager) : manager :=
  match active_connections m !! connection_id with
  | Some websocket =>
      Manager (active_connections m) (connection_sessions m) (accepted m)
              (delivered m ++ [(websocket, data)])
  | None => m
  end.

(** [manager.connection_sessions[client_id] = session_id], as the handlers
    write it. *)
Definition bind_session (connection_id session_id : string) (m : manager) : manager :=
  Manager (active_connections m)
          (<[connection_id := session_id]> (connection_sessions m))
          (accepted m) (delivered m).

(** What happens to a manager. *)
Inductive action :=
| Connect (websocket : nat) (connection_id : string)
| Disconnect (connection_id : string)
| SendJson (connection_id : string) (data : json)
| BindSession (connection_id session_id : string).

Definition act (a : action) (m : manager) : manager :=
  match a with
  | Connect ws cid => connect ws cid m
  | Disconnect cid => disconnect cid m
  | SendJson cid data => send_json cid data m
  | BindSession cid sid => bind_session cid sid m
  end.

Definition acts (l : list action) (m : manager) : manager := foldl (fun m a => act a m) m l.

End Payload.

Arguments Manager {json}.
Arguments active_connections {json}.
Arguments connection_sessions {json}.
Arguments accepted {json}.
Arguments delivered {json}.
Arguments init {json}.
Arguments connect {json}.
Arguments disconnect {json}.
Arguments send_json {json}.
Arguments bind_session {json}.
Arguments Connect {json}.
Arguments Disconnect {json}.
Arguments SendJson {json}.
Arguments BindSession {json}.
Arguments act {json}.
Arguments acts {json}.

End ConnectionManager.

(** ** Runs of store operations *)

(** A call of a method of [SessionManager]. *)
Inductive store_op :=
| OpCreate (mode : string) (config : option (gmap string value))
| OpGet (session_id : string)
| OpAddMessage (session_id role text : string)
| OpChangeMode (session_id new_mode : string) (config : option (gmap string value))
| OpUpdateModeData (session_id : string) (mode_data : gmap string value)
| OpDelete (session_id : string)
| OpCleanup (max_age : Z).

Definition run_op (op : store_op) : M unit :=
  match op with
  | OpCreate m c => SessionManager.create_session m c ;; ret tt
  | OpGet sid => SessionManager.get_session sid ;; ret tt
  | OpAddMessage sid r t => SessionManager.add_message sid r t
  | OpChangeMode sid m c => SessionManager.change_mode sid m c
  | OpUpdateModeData sid d => SessionManager.update_mode_data sid d
  | OpDelete sid => SessionManager.delete_session sid
  | OpCleanup a => SessionManager.cleanup_old_sessions a
  end.

Fixpoint run_ops (ops : list store_op) : M unit :=
  match ops with
  | [] => ret tt
  | op :: ops' => run_op op ;; run_ops ops'
  end.

(** Every session is stored under its own identifier and has at most 30
    turns. *)
Definition store_ok (w : world) : Prop :=
  forall k s, sessions w !! k = Some s ->
    session_id s = k /\ (length (conversation_history s) <= 30)%nat.

(** The clock never goes back. *)
Definition monotone_clock (w : world) : Prop :=
  forall i j, (i <= j)%nat -> clock w i <= clock w j.

(** Successive debate turns, given as [(user_message, ai_response)]. *)
Fixpoint debate_turns (mode_data : gmap string value)
    (turns : list (string * string)) : exn + gmap string value :=
  match turns with
  | [] => inr mode_data
  | (u, a) :: turns' =>
      match post_turn "debate" mode_data u a with
      | inl e => inl e
      | inr mode_data' => debate_turns mode_data' turns'
      end
  end.

(** Every character of the string is a space for [str.isspace]. *)
Fixpoint all_space (s : string) : bool :=
  match s with
  | EmptyString => true
  | String c s' => PyStr.isspace c && all_space s'
  end.

(** Where a session of the store after an operation comes from. *)
Inductive provenance (op : store_op) (w : world) (k : string) (s' : session) : Prop :=
| Kept : sessions w !! k = Some s' -> provenance op w k s'
| Created m c :
    op = OpCreate m c -> k = uuid4 w (uuids w) ->
    s' = Session k m [] (SessionManager._initialize_mode_data m (default ∅ c))
           (clock w (ticks w)) (clock w (S (ticks w))) ->
    provenance op w k s'
| Appended s r t :
    op = OpAddMessage k r t -> sessions w !! k = Some s ->
    s' = appended r t (clock w (ticks w)) (clock w (S (ticks w))) s ->
    provenance op w k s'
| Switched s m c :
    op = OpChangeMode k m c -> sessions w !! k = Some s ->
    s' = Session (session_id s) m (conversation_history s)
           (SessionManager._initialize_mode_data m (default ∅ c))
           (created_at s) (clock w (ticks w)) ->
    provenance op w k s'
| Merged s d :
    op = OpUpdateModeData k d -> sessions w !! k = Some s ->
    s' = Session (session_id s) (mode s) (conversation_history s)
           (d ∪ mode_specific_data s) (created_at s) (last_activity s) ->
    provenance op w k s'.

(** A run that creates, fills, switches, patches, reaps and deletes. *)
Definition busy_run : list store_op :=
  [OpCreate "interview" None] ++
  map (fun '(r, t) => OpAddMessage "s1" r t) forty_calls ++
  [OpChangeMode "s1" "debate" None; OpUpdateModeData "session-A" ∅;
   OpCleanup 3600; OpGet "s1"; OpDelete "session-A"].

(** A Groq client that answers every request with the same content. *)
Definition always_answer (c : string) : nat -> list message -> completion :=
  fun _ _ => ApiContent (Some c).

(** [demo_world] with a client that always answers. *)
Definition answering_world : world :=
  World demo_clock 0 demo_uuid4 0 (Some (always_answer " I am fine. And you? ")) []
        {[ "s1" := demo_session ]} {[ "c1" := "s1" ]} [].

(** A world whose session ["s1"] is an interview created with [config], and
    whose client always asks the same question. *)
Definition interview_world (config : gmap string value) : world :=
  World demo_clock 0 demo_uuid4 0 (Some (always_answer " Why this role? ")) []
        {[ "s1" := Session "s1" "interview" []
                     (SessionManager._initialize_mode_data "interview" config)
                     1000 1000 ]}
        {[ "c1" := "s1" ]} [].

(** The request [generate_greeting] sends when the system prompt is [sp]. *)
Definition greeting_request (py_str : value -> string) (sp m : string)
    (config : gmap string value) : list message :=
  [Message "system" sp;
   Message "user" ("Starting conversation: " +:+ Greeting.prompts_get py_str m config)].

(** The utterance [generate_greeting] returns in a world (it never
    raises). *)
Definition greeting_of (py_str : value -> string) (m : string)
    (config : gmap string value) (w : world) : Greeting.utterance :=
  match (Greeting.generate_greeting py_str m config w).1 with
  | inr g => g
  | inl _ => Greeting.Utterance "" m
  end.

(** Every delivered payload went to an accepted socket, and every registered
    socket is an accepted one. *)
Definition registry_ok {json : Type} (m : ConnectionManager.manager json) : Prop :=
  (forall ws data, (ws, data) ∈ ConnectionManager.delivered m ->
     ws ∈ ConnectionManager.accepted m)
  /\ (forall cid ws, ConnectionManager.active_connections m !! cid = Some ws ->
        ws ∈ ConnectionManager.accepted m).

(** A chat session with twelve turns, ["A"] to ["L"], said in turn by the
    user and by the AI, the user first. *)
Definition chatty_session : session :=
  Session "s1" "chat"
          (map (fun i => Turn (if Nat.even i then "user" else "ai")
                              (String (ascii_of_nat (65 + i)) EmptyString)
                              (900 + Z.of_nat i))
               (seq 0 12))
          (SessionManager._initialize_mode_data "chat" ∅) 900 911.

(** [failing_world] with that session as ["s1"]. *)
Definition chatty_world : world :=
  World demo_clock 0 demo_uuid4 0
        (Some (fun _ _ => ApiRaises "rate limit exceeded")) []
        {[ "s1" := chatty_session ]} {[ "c1" := "s1" ]} [].

(** * Properties *)

(** ** The embedding on small inputs *)

Example strip_examples :
  PyStr.strip "  hi there  " = "hi there"
  /\ PyStr.strip (" " +:+ PyStr.nl +:+ " ") = ""
  /\ PyStr.strip "a  b" = "a  b"
  /\ PyStr.take 50 "short" = "short"
  /\ PyStr.contains "?"%char "Why this role?" = true
  /\ PyStr.contains "?"%char "Thank you." = false.
Proof. repeat split; reflexivity. Qed.

Example py_min_int_examples :
  py_min_int 1 (VInt 5) = inr (VInt 1)
  /\ py_min_int 6 (VInt 5) = inr (VInt 5)
  /\ py_min_int 1 (VStr "5") = inl TypeError
  /\ py_add1 (VBool true) = inr 2
  /\ py_add1 VNone = inl TypeError.
Proof. repeat split; reflexivity. Qed.

(** A blank text and an unknown connection are ignored: nothing is stored
    and nothing is sent. *)
Example blank_text_is_ignored :
  App.handle_text_message scalar_str "c1" {[ "text" := VStr "   " ]} failing_world
    = (inr tt, failing_world)
  /\ App.handle_text_message scalar_str "c9" hello_event failing_world
    = (inr tt, failing_world).
Proof. split; vm_compute; reflexivity. Qed.

(** A connection bound to a session that is no longer in the store gets
    [ai-thinking] and an [error] event, and no request is made. *)
Example reaped_session_turn :
  let w := World demo_clock 0 demo_uuid4 0 (client flaky_world) [] ∅
                 {[ "c1" := "s1" ]} [] in
  App.handle_text_message scalar_str "c1" hello_event w
  = (inr tt,
     set_outbox [("c1", AiThinking "generating");
                 ("c1", ErrorEvent "Error processing your message" TypeError)] w).
Proof. vm_compute. reflexivity. Qed.


(** ** Lists and slices *)

Lemma slice_last_short {A} (n : nat) (l : list A) :
  (length l <= n)%nat -> slice_last n l = l.
Proof.
  intros H. unfold slice_last.
  replace (length l - n)%nat with 0%nat by lia. apply drop_0.
Qed.

Lemma length_slice_last {A} (n : nat) (l : list A) :
  length (slice_last n l) = Nat.min n (length l).
Proof. unfold slice_last. rewrite length_drop. lia. Qed.

Lemma slice_last_app_absorb {A} (n : nat) (l k : list A) :
  slice_last n (slice_last n l ++ k) = slice_last n (l ++ k).
Proof.
  destruct (decide (length l <= n)%nat) as [Hle|Hgt].
  - by rewrite (slice_last_short n l).
  - unfold slice_last at 1 3.
    rewrite !length_app, length_slice_last.
    replace (Nat.min n (length l)) with n by lia.
    unfold slice_last.
    rewrite <- (drop_app_le l k (length l - n)) by lia.
    rewrite drop_drop. f_equal. lia.
Qed.

Lemma slice_last_app_long {A} (n : nat) (l k : list A) :
  (n <= length k)%nat -> slice_last n (l ++ k) = slice_last n k.
Proof.
  intros H. unfold slice_last. rewrite length_app.
  replace (length l + length k - n)%nat with (length l + (length k - n))%nat by lia.
  rewrite <- drop_drop. by rewrite drop_app_length.
Qed.

Lemma slice_last_snoc {A} (n : nat) (l : list A) (x : A) :
  slice_last (S n) (l ++ [x]) = slice_last n l ++ [x].
Proof.
  unfold slice_last. rewrite length_app. cbn [length].
  replace (length l + 1 - S n)%nat with (length l - n)%nat by lia.
  apply drop_app_le. lia.
Qed.

Lemma slice_last_app_short {A} (n : nat) (l k : list A) :
  (length k <= n)%nat -> slice_last n (l ++ k) = slice_last (n - length k) l ++ k.
Proof.
  intros Hk. unfold slice_last. rewrite length_app.
  replace (length l + length k - n)%nat with (length l - (n - length k))%nat by lia.
  apply drop_app_le. lia.
Qed.

Lemma slice_last_slice_last {A} (m n : nat) (l : list A) :
  (m <= n)%nat -> slice_last m (slice_last n l) = slice_last m l.
Proof.
  intros Hmn. unfold slice_last at 1. rewrite length_slice_last.
  unfold slice_last. rewrite drop_drop. f_equal. lia.
Qed.

Lemma length_stamped clk k calls : length (stamped clk k calls) = length calls.
Proof.
  revert k. induction calls as [|[r t] calls IH]; intros k; simpl; [done|].
  by rewrite IH.
Qed.

(** ** The store operations on a session that exists, and on one that does not *)

Lemma add_message_present sid r t w s :
  sessions w !! sid = Some s ->
  SessionManager.add_message sid r t w =
    (inr tt,
     set_sessions
       (<[sid := appended r t (clock w (ticks w)) (clock w (S (ticks w))) s]>
          (sessions w))
       (set_ticks (S (S (ticks w))) w)).
Proof.
  intros Hs. unfold SessionManager.add_message, bind, gets, now, modify.
  rewrite Hs. cbn -[Nat.ltb slice_last]. do 3 f_equal.
  unfold appended.
  destruct (30 <? length (conversation_history s ++ [Turn r t (clock w (ticks w))]))%nat eqn:E.
  - reflexivity.
  - apply Nat.ltb_ge in E. cbn. by rewrite slice_last_short.
Qed.

Lemma add_message_absent sid r t w :
  sessions w !! sid = None -> SessionManager.add_message sid r t w = (inr tt, w).
Proof.
  intros Hs. unfold SessionManager.add_message, bind, gets. by rewrite Hs.
Qed.

Lemma add_messages_history sid calls : forall w s,
  sessions w !! sid = Some s ->
  exists s',
    add_messages sid calls w =
      (inr tt, set_sessions (<[sid := s']> (sessions w))
                 (set_ticks (2 * length calls + ticks w) w))
    /\ conversation_history s' =
         match calls with
         | [] => conversation_history s
         | _ => slice_last 30 (conversation_history s ++ stamped (clock w) (ticks w) calls)
         end.
Proof.
  induction calls as [|[r t] calls IH]; intros w s Hs.
  - exists s. split; [|done]. cbn. unfold ret.
    rewrite insert_id by done. by destruct w.
  - cbn [add_messages]. unfold bind at 1.
    rewrite (add_message_present _ _ _ _ _ Hs).
    set (s1 := appended r t _ _ s).
    set (w1 := set_sessions _ _).
    destruct (IH w1 s1) as (s' & Hrun & Hh).
    { subst w1. cbn. apply lookup_insert_eq. }
    exists s'. split.
    + rewrite Hrun. subst w1. unfold set_sessions, set_ticks. cbn -[Nat.mul].
      rewrite insert_insert_eq. do 2 f_equal. cbn [length]. lia.
    + rewrite Hh. subst w1 s1.
      destruct calls as [|c calls]; [done|].
      unfold appended. cbn -[slice_last stamped].
      rewrite slice_last_app_absorb. by rewrite <- app_assoc.
Qed.

(** ** History cap *)

(** C1. On a session of the store, every non-empty run of [add_message] calls
    leaves a history that is the last 30 entries of the previous history
    followed by the appended turns, in their order; it has at most 30
    entries, and after 30 calls or more it is exactly the 30 most recently
    appended turns.  The statement holds for every run, hence after each call
    of a longer run. *)
Theorem add_message_history_cap (sid : string) (calls : list (string * string))
    (w : world) (s : session) :
  sessions w !! sid = Some s ->
  calls <> [] ->
  exists s',
    (add_messages sid calls w).1 = inr tt
    /\ sessions (add_messages sid calls w).2 !! sid = Some s'
    /\ conversation_history s' =
         slice_last 30 (conversation_history s ++ stamped (clock w) (ticks w) calls)
    /\ (length (conversation_history s') <= 30)%nat
    /\ ((30 <= length calls)%nat ->
        conversation_history s' = slice_last 30 (stamped (clock w) (ticks w) calls)
        /\ length (conversation_history s') = 30%nat).
Proof.
  intros Hs Hne.
  destruct (add_messages_history sid calls w s Hs) as (s' & Hrun & Hh).
  exists s'. rewrite Hrun. cbn.
  destruct calls as [|c calls]; [done|].
  repeat split.
  - apply lookup_insert_eq.
  - done.
  - rewrite Hh, length_slice_last. lia.
  - rewrite Hh. apply slice_last_app_long. by rewrite length_stamped.
  - rewrite Hh, length_slice_last, length_app, length_stamped. lia.
Qed.

Lemma add_message_history_cap_witness :
  exists s',
    (add_messages "s1" forty_calls demo_world).1 = inr tt
    /\ sessions (add_messages "s1" forty_calls demo_world).2 !! "s1" = Some s'
    /\ conversation_history s' =
         slice_last 30 (conversation_history demo_session
                        ++ stamped demo_clock 0 forty_calls)
    /\ (length (conversation_history s') <= 30)%nat
    /\ ((30 <= length forty_calls)%nat ->
        conversation_history s' = slice_last 30 (stamped demo_clock 0 forty_calls)
        /\ length (conversation_history s') = 30%nat).
Proof.
  apply (add_message_history_cap "s1" forty_calls demo_world demo_session).
  - reflexivity.
  - discriminate.
Defined.

(** Forty appended turns leave the texts of the last thirty, ["K"] to ["r"]. *)
Example forty_turns_keep_thirty :
  (fun s => map text (conversation_history s))
    <$> (sessions (add_messages "s1" forty_calls demo_world).2 !! "s1")
  = Some (map snd (drop 10 forty_calls)).
Proof. vm_compute. reflexivity. Qed.

(** ** Operations on an identifier that is not in the store *)

Lemma change_mode_absent sid new_mode config w :
  sessions w !! sid = None ->
  SessionManager.change_mode sid new_mode config w = (inr tt, w).
Proof.
  intros Hs. unfold SessionManager.change_mode, bind, gets. by rewrite Hs.
Qed.

Lemma update_mode_data_absent sid mode_data w :
  sessions w !! sid = None ->
  SessionManager.update_mode_data sid mode_data w = (inr tt, w).
Proof.
  intros Hs. unfold SessionManager.update_mode_data, bind, gets. by rewrite Hs.
Qed.

Lemma delete_session_absent sid w :
  sessions w !! sid = None -> SessionManager.delete_session sid w = (inr tt, w).
Proof.
  intros Hs. unfold SessionManager.delete_session, modify.
  rewrite decide_False; [done|]. rewrite Hs. by intros [? ?].
Qed.

(** C9. On an identifier that is not in the store, [get_session] returns
    [None] and [add_message], [change_mode], [update_mode_data] and
    [delete_session] return normally; none of them raises and each leaves the
    whole world, hence the key set and every session of the store, as it
    was. *)
Theorem absent_session_is_noop (sid : string) (w : world)
    (r t new_mode : string) (config : option (gmap string value))
    (mode_data : gmap string value) :
  sessions w !! sid = None ->
  SessionManager.get_session sid w = (inr None, w)
  /\ SessionManager.add_message sid r t w = (inr tt, w)
  /\ SessionManager.change_mode sid new_mode config w = (inr tt, w)
  /\ SessionManager.update_mode_data sid mode_data w = (inr tt, w)
  /\ SessionManager.delete_session sid w = (inr tt, w).
Proof.
  intros Hs. repeat split.
  - unfold SessionManager.get_session, gets. by rewrite Hs.
  - by apply add_message_absent.
  - by apply change_mode_absent.
  - by apply update_mode_data_absent.
  - by apply delete_session_absent.
Qed.

Lemma absent_session_is_noop_witness :
  SessionManager.get_session "gone" demo_world = (inr None, demo_world)
  /\ SessionManager.add_message "gone" "user" "hello" demo_world = (inr tt, demo_world)
  /\ SessionManager.change_mode "gone" "debate" None demo_world = (inr tt, demo_world)
  /\ SessionManager.update_mode_data "gone" {[ "question_index" := VInt 1 ]} demo_world
     = (inr tt, demo_world)
  /\ SessionManager.delete_session "gone" demo_world = (inr tt, demo_world).
Proof.
  apply (absent_session_is_noop "gone" demo_world "user" "hello" "debate" None
           {[ "question_index" := VInt 1 ]}).
  reflexivity.
Defined.

(** ** The reaper *)

Lemma lookup_foldl_delete (ids : list string) (ss : gmap string session) (k : string) :
  foldl (fun m i => delete i m) ss ids !! k
  = if decide (k ∈ ids) then None else ss !! k.
Proof.
  revert ss. induction ids as [|i ids IH]; intros ss; cbn [foldl].
  - rewrite decide_False; [done|]. apply not_elem_of_nil.
  - rewrite IH. destruct (decide (k ∈ ids)) as [Hin|Hnin].
    + rewrite decide_True; [done|]. apply elem_of_cons. by right.
    + destruct (decide (k = i)) as [->|Hne].
      * rewrite lookup_delete_eq. rewrite decide_True; [done|]. apply elem_of_cons. by left.
      * rewrite lookup_delete_ne by done.
        rewrite decide_False; [done|]. intros [?|?]%elem_of_cons; done.
Qed.

Lemma elem_of_session_ids_to_delete current max_age (ss : gmap string session) k :
  k ∈ SessionManager.session_ids_to_delete current max_age ss
  <-> exists s, ss !! k = Some s /\ current - last_activity s > max_age.
Proof.
  unfold SessionManager.session_ids_to_delete.
  rewrite list_elem_of_fmap. split.
  - intros ([k' s] & -> & Hin). apply list_elem_of_filter in Hin as [Hold Hin].
    apply elem_of_map_to_list in Hin. by exists s.
  - intros (s & Hs & Hold). exists (k, s). split; [done|].
    apply list_elem_of_filter. split; [done|]. by apply elem_of_map_to_list.
Qed.

Lemma cleanup_old_sessions_lookup (max_age : Z) (w : world) (sid : string) :
  SessionManager.cleanup_old_sessions max_age w
  = (inr tt, (SessionManager.cleanup_old_sessions max_age w).2)
  /\ sessions (SessionManager.cleanup_old_sessions max_age w).2 !! sid =
       match sessions w !! sid with
       | Some s =>
           if decide (clock w (ticks w) - last_activity s > max_age)
           then None else Some s
       | None => None
       end.
Proof.
  split; [done|].
  unfold SessionManager.cleanup_old_sessions, bind, now, modify. cbn.
  rewrite lookup_foldl_delete.
  destruct (decide (sid ∈ _)) as [Hin|Hnin].
  - apply elem_of_session_ids_to_delete in Hin as (s & Hs & Hold).
    rewrite Hs. by rewrite decide_True.
  - destruct (sessions w !! sid) as [s|] eqn:Hs; [|done].
    destruct (decide (clock w (ticks w) - last_activity s > max_age))
      as [Hold|Hyoung]; [|done].
    exfalso. apply Hnin. apply elem_of_session_ids_to_delete. by exists s.
Qed.

(** C7. [cleanup_old_sessions] reads the clock once and returns normally; a
    session of the store is removed exactly when that reading minus its
    [last_activity] is greater than [max_age].  At equality it is not
    removed, and a session that is not removed is the same dictionary as
    before. *)
Theorem cleanup_old_sessions_spec (max_age : Z) (w : world) (sid : string)
    (s : session) :
  sessions w !! sid = Some s ->
  (SessionManager.cleanup_old_sessions max_age w).1 = inr tt
  /\ (sessions (SessionManager.cleanup_old_sessions max_age w).2 !! sid = None
      <-> clock w (ticks w) - last_activity s > max_age)
  /\ (~ clock w (ticks w) - last_activity s > max_age ->
      sessions (SessionManager.cleanup_old_sessions max_age w).2 !! sid = Some s)
  /\ (clock w (ticks w) - last_activity s = max_age ->
      sessions (SessionManager.cleanup_old_sessions max_age w).2 !! sid = Some s).
Proof.
  intros Hs.
  destruct (cleanup_old_sessions_lookup max_age w sid) as [Hrun Hlook].
  rewrite Hs in Hlook. rewrite Hlook. split; [by rewrite Hrun|].
  destruct (decide (clock w (ticks w) - last_activity s > max_age)) as [Hold|Hyoung].
  - repeat split; intros; (done || lia).
  - repeat split; intros; done.
Qed.

Lemma cleanup_old_sessions_spec_witness :
  (SessionManager.cleanup_old_sessions 3600 reaper_world).1 = inr tt
  /\ (sessions (SessionManager.cleanup_old_sessions 3600 reaper_world).2 !! "edge" = None
      <-> 5000 - 1400 > 3600)
  /\ (~ 5000 - 1400 > 3600 ->
      sessions (SessionManager.cleanup_old_sessions 3600 reaper_world).2 !! "edge"
      = Some (Session "edge" "chat" [] ∅ 1000 1400))
  /\ (5000 - 1400 = 3600 ->
      sessions (SessionManager.cleanup_old_sessions 3600 reaper_world).2 !! "edge"
      = Some (Session "edge" "chat" [] ∅ 1000 1400)).
Proof.
  apply (cleanup_old_sessions_spec 3600 reaper_world "edge"
           (Session "edge" "chat" [] ∅ 1000 1400)).
  reflexivity.
Defined.

(** With [max_age = 3600] the reaper removes ["old"] and keeps ["edge"] and
    ["young"]. *)
Example reaper_removes_only_old :
  dom (sessions (SessionManager.cleanup_old_sessions 3600 reaper_world).2)
  = ({[ "edge"; "young" ]} : gset string).
Proof. vm_compute. reflexivity. Qed.

(** ** Initial mode data *)

Lemma initialize_mode_data_other (m : string) (config : gmap string value) :
  m <> "interview" -> m <> "debate" ->
  SessionManager._initialize_mode_data m config = chat_context config.
Proof.
  intros Hi Hd. unfold SessionManager._initialize_mode_data.
  apply String.eqb_neq in Hi, Hd. by rewrite Hi, Hd.
Qed.

(** C6. What [_initialize_mode_data] stores for each recognised option: the
    value of the config, or a default when the config has none.  The
    defaults are ["Software Engineer"], 5, ["AI in society"] and the empty
    dictionary where expected, but ["Tech Company"] for [company] and
    ["pro"] for [stance]. *)
Theorem initialize_mode_data_defaults (config : gmap string value) :
  SessionManager._initialize_mode_data "interview" config !! "role"
    = Some (dict_get config "role" (VStr "Software Engineer"))
  /\ SessionManager._initialize_mode_data "interview" config !! "company"
    = Some (dict_get config "company" (VStr "Tech Company"))
  /\ SessionManager._initialize_mode_data "interview" config !! "total_questions"
    = Some (dict_get config "totalQuestions" (VInt 5))
  /\ SessionManager._initialize_mode_data "debate" config !! "topic"
    = Some (dict_get config "topic" (VStr "AI in society"))
  /\ SessionManager._initialize_mode_data "debate" config !! "stance"
    = Some (dict_get config "stance" (VStr "pro"))
  /\ SessionManager._initialize_mode_data "chat" config !! "user_preferences"
    = Some (dict_get config "preferences" (VDict []))
  /\ SessionManager._initialize_mode_data "interview" ∅ !! "company"
    <> Some (VStr "a leading tech company")
  /\ SessionManager._initialize_mode_data "debate" ∅ !! "stance"
    <> Some (VStr "PRO").
Proof.
  repeat split; try reflexivity; discriminate.
Qed.

(** The system prompt falls back on other values for the same two fields. *)
Example system_prompt_defaults (py_str : value -> string) :
  GroqService._get_system_prompt py_str "debate" ∅
  = inr (GroqService.debate_prompt (py_str (VStr "AI in society")) (py_str (VStr "PRO")))
  /\ GroqService._get_system_prompt py_str "interview" ∅
  = inr (GroqService.interview_prompt
           (py_str (VStr "Software Engineer")) (py_str (VStr "a leading tech company"))
           (py_str (VInt 5)) (py_str (VInt 1))).
Proof. split; reflexivity. Qed.

(** ** Modes outside the documented set *)

Lemma create_session_run (m : string) (config : option (gmap string value)) (w : world) :
  SessionManager.create_session m config w =
    (inr (uuid4 w (uuids w)),
     set_sessions
       (<[uuid4 w (uuids w) :=
            Session (uuid4 w (uuids w)) m []
              (SessionManager._initialize_mode_data m (default ∅ config))
              (clock w (ticks w)) (clock w (S (ticks w)))]> (sessions w))
       (set_ticks (S (S (ticks w))) (set_uuids (S (uuids w)) w))).
Proof. reflexivity. Qed.

Lemma change_mode_present sid new_mode config w s :
  sessions w !! sid = Some s ->
  SessionManager.change_mode sid new_mode config w =
    (inr tt,
     set_sessions
       (<[sid := Session (session_id s) new_mode (conversation_history s)
                   (SessionManager._initialize_mode_data new_mode (default ∅ config))
                   (created_at s) (clock w (ticks w))]> (sessions w))
       (set_ticks (S (ticks w)) w)).
Proof.
  intros Hs. unfold SessionManager.change_mode, bind, gets, now, modify.
  by rewrite Hs.
Qed.

(** C10. For a mode string other than ["interview"] and ["debate"], whatever
    it is, [create_session] returns the new identifier and stores under it a
    session with that mode, an empty history and the chat-shaped context;
    [start_session] does the same and answers with that mode; [change_mode]
    on a session of the store sets that mode and the chat-shaped context.
    None of them compares the mode with the documented set. *)
Theorem create_session_accepts_any_mode (m : string)
    (config : option (gmap string value)) (w : world) :
  m <> "interview" -> m <> "debate" ->
  let sid := uuid4 w (uuids w) in
  let fresh := Session sid m [] (chat_context (default ∅ config))
                 (clock w (ticks w)) (clock w (S (ticks w))) in
  (SessionManager.create_session m config w).1 = inr sid
  /\ sessions (SessionManager.create_session m config w).2 !! sid = Some fresh
  /\ (App.start_session (App.StartRequest (Some m) config) w).1
     = inr (App.StartReply true sid m "Session created successfully")
  /\ sessions (App.start_session (App.StartRequest (Some m) config) w).2 !! sid
     = Some fresh
  /\ (forall sid' s, sessions w !! sid' = Some s ->
        (SessionManager.change_mode sid' m config w).1 = inr tt
        /\ sessions (SessionManager.change_mode sid' m config w).2 !! sid'
           = Some (Session (session_id s) m (conversation_history s)
                     (chat_context (default ∅ config))
                     (created_at s) (clock w (ticks w)))).
Proof.
  intros Hi Hd sid fresh. subst sid fresh.
  rewrite <- (initialize_mode_data_other m (default ∅ config) Hi Hd).
  repeat split.
  - rewrite create_session_run. cbn. apply lookup_insert_eq.
  - unfold App.start_session, bind. rewrite create_session_run. cbn.
    apply lookup_insert_eq.
  - by rewrite (change_mode_present _ _ _ _ _ H).
  - rewrite (change_mode_present _ _ _ _ _ H). cbn. apply lookup_insert_eq.
Qed.

Lemma create_session_accepts_any_mode_witness :
  (SessionManager.create_session "karaoke" None demo_world).1 = inr "session-A"
  /\ (mode <$> sessions (SessionManager.create_session "karaoke" None demo_world).2
                 !! "session-A") = Some "karaoke".
Proof.
  destruct (create_session_accepts_any_mode "karaoke" None demo_world)
    as (Hid & Hstored & _); [discriminate | discriminate |].
  split; [exact Hid|].
  pose proof (Hstored : sessions
    (SessionManager.create_session "karaoke" None demo_world).2 !! "session-A"
    = Some _) as Hs.
  rewrite Hs. reflexivity.
Defined.

(** ** Last activity *)

Lemma update_mode_data_present sid mode_data w s :
  sessions w !! sid = Some s ->
  SessionManager.update_mode_data sid mode_data w =
    (inr tt,
     set_sessions
       (<[sid := Session (session_id s) (mode s) (conversation_history s)
                   (mode_data ∪ mode_specific_data s)
                   (created_at s) (last_activity s)]> (sessions w)) w).
Proof.
  intros Hs. unfold SessionManager.update_mode_data, bind, gets, modify.
  by rewrite Hs.
Qed.

(** [add_message] and [change_mode] store the reading of the clock they make
    last. *)
Lemma add_message_change_mode_touch sid w s r t new_mode config :
  sessions w !! sid = Some s ->
  (last_activity <$> sessions (SessionManager.add_message sid r t w).2 !! sid)
    = Some (clock w (S (ticks w)))
  /\ (last_activity <$> sessions (SessionManager.change_mode sid new_mode config w).2 !! sid)
    = Some (clock w (ticks w)).
Proof.
  intros Hs. split.
  - rewrite (add_message_present _ _ _ _ _ Hs). cbn. by rewrite lookup_insert_eq.
  - rewrite (change_mode_present _ _ _ _ _ Hs). cbn. by rewrite lookup_insert_eq.
Qed.

(** When the clock never reads less than the [last_activity] of a session,
    none of the three operations lowers it. *)
Lemma last_activity_never_decreases sid w s r t new_mode config mode_data :
  sessions w !! sid = Some s ->
  (forall k, last_activity s <= clock w k) ->
  forall w',
    w' = (SessionManager.add_message sid r t w).2
    \/ w' = (SessionManager.change_mode sid new_mode config w).2
    \/ w' = (SessionManager.update_mode_data sid mode_data w).2 ->
    exists s', sessions w' !! sid = Some s' /\ last_activity s <= last_activity s'.
Proof.
  intros Hs Hclock w' [->|[->| ->]].
  - rewrite (add_message_present _ _ _ _ _ Hs). cbn. rewrite lookup_insert_eq.
    eexists. split; [done|]. cbn. apply Hclock.
  - rewrite (change_mode_present _ _ _ _ _ Hs). cbn. rewrite lookup_insert_eq.
    eexists. split; [done|]. cbn. apply Hclock.
  - rewrite (update_mode_data_present _ _ _ _ Hs). cbn. rewrite lookup_insert_eq.
    eexists. split; [done|]. cbn. lia.
Qed.

(** C8. [update_mode_data] never reads the clock and leaves [last_activity]
    of every session as it was; on session ["s1"] of [later_world], whose
    clock reads 1050, it merges the patch and [last_activity] stays 1000,
    where [add_message] and [change_mode] store the time they read. *)
Theorem update_mode_data_keeps_last_activity :
  (forall sid mode_data w k,
     ticks (SessionManager.update_mode_data sid mode_data w).2 = ticks w
     /\ (last_activity <$> sessions (SessionManager.update_mode_data sid mode_data w).2 !! k)
        = (last_activity <$> sessions w !! k))
  /\ clock later_world (ticks later_world) = 1050
  /\ (let w' := (SessionManager.update_mode_data "s1"
                   {[ "emotional_tone" := VStr "calm" ]} later_world).2 in
      (last_activity <$> sessions w' !! "s1") = Some 1000
      /\ (mode_specific_data <$> sessions w' !! "s1")
         = Some {[ "user_preferences" := VDict [];
                   "emotional_tone" := VStr "calm" ]})
  /\ (last_activity <$>
        sessions (SessionManager.add_message "s1" "user" "hi" later_world).2 !! "s1")
     = Some 1051
  /\ (last_activity <$>
        sessions (SessionManager.change_mode "s1" "debate" None later_world).2 !! "s1")
     = Some 1050.
Proof.
  split.
  { intros sid mode_data w k.
    destruct (sessions w !! sid) as [s|] eqn:Hs.
    - rewrite (update_mode_data_present _ _ _ _ Hs). cbn. split; [done|].
      destruct (decide (sid = k)) as [->|Hne].
      + by rewrite lookup_insert_eq, Hs.
      + by rewrite lookup_insert_ne.
    - by rewrite (update_mode_data_absent _ _ _ Hs). }
  repeat split; vm_compute; reflexivity.
Qed.

(** ** Interview progression *)

Lemma questions_nonneg turns : 0 <= questions turns.
Proof.
  induction turns as [|[u a] turns IH]; cbn [questions]; [lia|].
  destruct (PyStr.contains _ a); lia.
Qed.

Lemma questions_app turns more : questions (turns ++ more) = questions turns + questions more.
Proof.
  induction turns as [|[u a] turns IH]; cbn [questions app]; [lia|].
  rewrite IH. lia.
Qed.

Lemma process_mode_logic_interview (mode_data : gmap string value) (q t : Z) u a :
  mode_data !! "question_index" = Some (VInt q) ->
  mode_data !! "total_questions" = Some (VInt t) ->
  GroqService._process_mode_logic "interview" mode_data u a
  = inr (if PyStr.contains "?"%char a
         then {[ "question_index" := VInt (Z.min (q + 1) t) ]} else ∅).
Proof.
  intros Hq Ht. unfold GroqService._process_mode_logic, dict_get.
  rewrite Hq, Ht. cbn.
  destruct (PyStr.contains _ a); [|done].
  do 2 f_equal. destruct (Z.ltb_spec t (q + 1)); f_equal; lia.
Qed.

Lemma post_turn_interview (mode_data : gmap string value) (q t : Z) u a :
  mode_data !! "question_index" = Some (VInt q) ->
  mode_data !! "total_questions" = Some (VInt t) ->
  exists mode_data',
    post_turn "interview" mode_data u a = inr mode_data'
    /\ mode_data' !! "question_index"
       = Some (VInt (if PyStr.contains "?"%char a then Z.min (q + 1) t else q))
    /\ mode_data' !! "total_questions" = Some (VInt t).
Proof.
  intros Hq Ht. unfold post_turn.
  rewrite (process_mode_logic_interview _ q t u a Hq Ht).
  destruct (PyStr.contains _ a); eexists; (split; [reflexivity|]).
  - split.
    + apply lookup_union_Some_l. apply lookup_singleton_eq.
    + rewrite lookup_union_r; [done|]. by apply lookup_singleton_ne.
  - by rewrite (left_id_L ∅ (∪)).
Qed.

Lemma interview_turns_index turns : forall (mode_data : gmap string value) (q t : Z),
  mode_data !! "question_index" = Some (VInt q) ->
  mode_data !! "total_questions" = Some (VInt t) ->
  q <= t ->
  exists mode_data',
    interview_turns mode_data turns = inr mode_data'
    /\ mode_data' !! "question_index" = Some (VInt (Z.min (q + questions turns) t))
    /\ mode_data' !! "total_questions" = Some (VInt t).
Proof.
  induction turns as [|[u a] turns IH]; intros mode_data q t Hq Ht Hle.
  - exists mode_data. cbn. rewrite Z.add_0_r, Z.min_l by lia. done.
  - cbn [interview_turns questions].
    destruct (post_turn_interview mode_data q t u a Hq Ht) as (md1 & -> & Hq1 & Ht1).
    pose proof (questions_nonneg turns) as Hn.
    destruct (IH md1 _ t Hq1 Ht1) as (md' & Hrun & Hq' & Ht').
    { destruct (PyStr.contains _ a); lia. }
    exists md'. split; [done|]. split; [|done].
    rewrite Hq'. do 2 f_equal. destruct (PyStr.contains _ a); lia.
Qed.

(** C4, as stated, fails: a reply with a question mark can lower the
    question index.  On [negative_interview] the index is 0 and the total is
    -3, and the patch sets the index to [min (0 + 1) (-3) = -3]. *)
Lemma question_index_can_decrease :
  ~ (forall (mode_data mode_data' : gmap string value) (u a : string) (q q' : Z),
       mode_data !! "question_index" = Some (VInt q) ->
       post_turn "interview" mode_data u a = inr mode_data' ->
       mode_data' !! "question_index" = Some (VInt q') ->
       q <= q').
Proof.
  intros H.
  destruct (post_turn_interview negative_interview 0 (-3)
              "I am ready" "Shall we begin?")
    as (md' & Hrun & Hq & _); [reflexivity | reflexivity |].
  pose proof (H negative_interview md' _ _ 0 (-3) eq_refl Hrun Hq). lia.
Qed.

(** C4, amended. In interview mode with an integer question index [q] and an
    integer total [t], the patch of [_process_mode_logic] is
    [question_index := min (q + 1) t] when the reply contains a question
    mark and is empty otherwise.  When moreover [q <= t], every run of turns
    succeeds and leaves the index at [min (q + n) t], where [n] counts the
    replies with a question mark: the index never decreases along the run
    and never exceeds [t]. *)
Theorem interview_question_index (mode_data : gmap string value) (q t : Z)
    (u a : string) (turns more : list (string * string)) :
  mode_data !! "question_index" = Some (VInt q) ->
  mode_data !! "total_questions" = Some (VInt t) ->
  GroqService._process_mode_logic "interview" mode_data u a
    = inr (if PyStr.contains "?"%char a
           then {[ "question_index" := VInt (Z.min (q + 1) t) ]} else ∅)
  /\ (q <= t ->
      exists (md1 md2 : gmap string value) (q1 q2 : Z),
        interview_turns mode_data turns = inr md1
        /\ interview_turns mode_data (turns ++ more) = inr md2
        /\ md1 !! "question_index" = Some (VInt q1)
        /\ md2 !! "question_index" = Some (VInt q2)
        /\ q1 = Z.min (q + questions turns) t
        /\ q <= q1 /\ q1 <= q2 /\ q2 <= t).
Proof.
  intros Hq Ht. split; [by apply process_mode_logic_interview|].
  intros Hle.
  destruct (interview_turns_index turns mode_data q t Hq Ht Hle) as (md1 & H1 & Hq1 & _).
  destruct (interview_turns_index (turns ++ more) mode_data q t Hq Ht Hle)
    as (md2 & H2 & Hq2 & _).
  exists md1, md2, (Z.min (q + questions turns) t),
         (Z.min (q + questions (turns ++ more)) t).
  pose proof (questions_nonneg turns). pose proof (questions_nonneg more).
  rewrite questions_app in *.
  repeat split; try done; lia.
Qed.

Lemma interview_question_index_witness :
  GroqService._process_mode_logic "interview" fresh_interview "hi" "Why this role?"
    = inr (if PyStr.contains "?"%char "Why this role?"
           then {[ "question_index" := VInt (Z.min (0 + 1) 5) ]} else ∅)
  /\ (0 <= 5 ->
      exists (md1 md2 : gmap string value) (q1 q2 : Z),
        interview_turns fresh_interview three_questions = inr md1
        /\ interview_turns fresh_interview
             (three_questions ++ [("so", "Thank you.")]) = inr md2
        /\ md1 !! "question_index" = Some (VInt q1)
        /\ md2 !! "question_index" = Some (VInt q2)
        /\ q1 = Z.min (0 + questions three_questions) 5
        /\ 0 <= q1 /\ q1 <= q2 /\ q2 <= 5).
Proof.
  apply (interview_question_index fresh_interview 0 5 "hi" "Why this role?"
           three_questions [("so", "Thank you.")]); reflexivity.
Defined.

(** From question 0 of 5: three question replies reach 3, a reply without a
    question mark keeps 3, and nine question replies stop at 5. *)
Example interview_progression :
  let index turns :=
    match interview_turns fresh_interview turns with
    | inr md => md !! "question_index"
    | inl _ => None
    end in
  index three_questions = Some (VInt 3)
  /\ index (three_questions ++ [("so", "Thank you.")])%list = Some (VInt 3)
  /\ index (three_questions ++ three_questions ++ three_questions)%list
     = Some (VInt 5).
Proof. repeat split; vm_compute; reflexivity. Qed.

(** ** One turn of conversation *)

Section Turn.

Variable py_str : value -> string.

Lemma generate_response_run user_message history mode mode_data w :
  GroqService.generate_response py_str user_message history mode mode_data w =
    match client w with
    | None => (inl (Exception "Groq service not initialized. Check your API key."), w)
    | Some api =>
        match GroqService._get_system_prompt py_str mode mode_data with
        | inl e => (inl (AIServiceError e), w)
        | inr system_prompt =>
            let messages := request_for system_prompt history user_message in
            (outcome_of (api (length (requests w)) messages) mode mode_data user_message,
             set_requests (requests w ++ [messages]) w)
        end
    end.
Proof.
  unfold GroqService.generate_response, bind, gets, try_except, lift, raise.
  destruct (client w) as [api|]; [|done].
  destruct (GroqService._get_system_prompt py_str mode mode_data) as [e|sp]; [done|].
  unfold GroqService.create_completion, bind, gets, modify, raise, ret.
  cbn -[slice_last GroqService._process_mode_logic PyStr.strip].
  unfold request_for, outcome_of.
  destruct (api _ _) as [msg|[c|]]; cbn -[slice_last GroqService._process_mode_logic PyStr.strip];
    [done| |done].
  by destruct (GroqService._process_mode_logic _ _ _ _).
Qed.

(** [generate_response] reads the client and the number of requests made, and
    writes the request log only. *)
Lemma generate_response_frame user_message history mode mode_data w w' :
  client w' = client w ->
  requests w' = requests w ->
  GroqService.generate_response py_str user_message history mode mode_data w' =
    ((GroqService.generate_response py_str user_message history mode mode_data w).1,
     set_requests
       (requests (GroqService.generate_response py_str user_message history mode mode_data w).2)
       w').
Proof.
  intros Hc Hr. rewrite !generate_response_run, Hc.
  assert (set_requests (requests w) w' = w') as Hid.
  { rewrite <- Hr. by destruct w'. }
  destruct (client w) as [api|]; cbn; [|by rewrite Hid].
  destruct (GroqService._get_system_prompt py_str mode mode_data) as [e|sp]; cbn;
    [by rewrite Hid|].
  by rewrite Hr.
Qed.

End Turn.

Section Handler.

Variable py_str : value -> string.

Lemma handle_text_message_failure cid data w sid s t e :
  connection_sessions w !! cid = Some sid ->
  sessions w !! sid = Some s ->
  App.text_of data = inr t ->
  PyStr.is_empty t = false ->
  (llm_call py_str t w s w).1 = inl e ->
  App.handle_text_message py_str cid data w =
    (inr tt,
     World (clock w) (S (S (ticks w))) (uuid4 w) (uuids w) (client w)
       (requests (llm_call py_str t w s w).2)
       (<[sid := with_user_turn t w s]> (sessions w))
       (connection_sessions w)
       (outbox w ++ [(cid, AiThinking "generating");
                     (cid, ErrorEvent "Error processing your message" e)])).
Proof.
  intros Hc Hs Ht Hne Hfail.
  unfold App.handle_text_message, try_except.
  unfold bind at 1. unfold gets at 1. rewrite Hc.
  unfold bind at 1. unfold lift at 1. rewrite Ht, Hne.
  unfold bind at 1. rewrite (add_message_present _ _ _ _ _ Hs).
  unfold bind at 1. unfold SessionManager.get_session, gets at 1.
  cbn [sessions set_sessions]. rewrite lookup_insert_eq.
  unfold bind at 1. unfold App.send_json at 1, modify at 1.
  unfold bind at 1.
  fold (with_user_turn t w s).
  rewrite (generate_response_frame py_str t _ _ _ w) by reflexivity.
  change (GroqService.generate_response py_str t
            (conversation_history (with_user_turn t w s))
            (mode (with_user_turn t w s))
            (mode_specific_data (with_user_turn t w s)))
    with (llm_call py_str t w s).
  rewrite Hfail. unfold App.send_json, modify.
  cbn [set_outbox set_requests set_sessions set_ticks clock ticks uuid4 uuids client
       requests sessions connection_sessions outbox].
  by rewrite <- app_assoc.
Qed.

Lemma handle_text_message_success cid data w sid s t r :
  connection_sessions w !! cid = Some sid ->
  sessions w !! sid = Some s ->
  App.text_of data = inr t ->
  PyStr.is_empty t = false ->
  (llm_call py_str t w s w).1 = inr r ->
  App.handle_text_message py_str cid data w =
    (inr tt,
     World (clock w) (S (S (S (S (S (ticks w)))))) (uuid4 w) (uuids w) (client w)
       (requests (llm_call py_str t w s w).2)
       (<[sid := with_ai_turn t w s r]> (sessions w))
       (connection_sessions w)
       (outbox w ++ [(cid, AiThinking "generating");
                     (cid, AiResponse (resp_text r)
                             (GroqService.text_to_speech (resp_text r))
                             (resp_mode_data r)
                             (clock w (S (S (S (S (ticks w))))) * 1000))])).
Proof.
  intros Hc Hs Ht Hne Hok.
  unfold App.handle_text_message, try_except.
  unfold bind at 1. unfold gets at 1. rewrite Hc.
  unfold bind at 1. unfold lift at 1. rewrite Ht, Hne.
  unfold bind at 1. rewrite (add_message_present _ _ _ _ _ Hs).
  unfold bind at 1. unfold SessionManager.get_session, gets at 1.
  cbn [sessions set_sessions]. rewrite lookup_insert_eq.
  unfold bind at 1. unfold App.send_json at 1, modify at 1.
  unfold bind at 1.
  fold (with_user_turn t w s).
  rewrite (generate_response_frame py_str t _ _ _ w) by reflexivity.
  change (GroqService.generate_response py_str t
            (conversation_history (with_user_turn t w s))
            (mode (with_user_turn t w s))
            (mode_specific_data (with_user_turn t w s)))
    with (llm_call py_str t w s).
  rewrite Hok.
  set (w2 := set_requests _ _).
  assert (sessions w2 !! sid = Some (with_user_turn t w s)) as Hs2.
  { subst w2. cbn. apply lookup_insert_eq. }
  set (s2 := set_mode_specific_data (resp_mode_data r ∪ mode_specific_data s)
               (with_user_turn t w s)).
  assert (exists w3,
    (if decide (resp_mode_data r = ∅) then ret tt
     else SessionManager.update_mode_data sid (resp_mode_data r)) w2 = (inr tt, w3)
    /\ w3 = set_sessions (<[sid := s2]> (sessions w2)) w2) as (w3 & Hupd & Hw3).
  { destruct (decide (resp_mode_data r = ∅)) as [Hempty|Hpatch].
    - exists w2. split; [done|]. subst s2. rewrite Hempty, (left_id_L ∅ (∪)).
      rewrite insert_id; [by destruct w2|]. by rewrite Hs2.
    - eexists. split; [|reflexivity].
      by rewrite (update_mode_data_present _ _ _ _ Hs2). }
  unfold bind at 1. rewrite Hupd.
  assert (sessions w3 !! sid = Some s2) as Hs3.
  { rewrite Hw3. cbn. apply lookup_insert_eq. }
  unfold bind at 1. rewrite (add_message_present _ _ _ _ _ Hs3).
  unfold bind at 1. unfold now at 1. unfold App.send_json, modify.
  rewrite Hw3. subst w2.
  cbn [set_outbox set_requests set_sessions set_ticks clock ticks uuid4 uuids client
       requests sessions connection_sessions outbox].
  rewrite !insert_insert_eq. by rewrite <- app_assoc.
Qed.

(** The request of the invocation ends with the text of the user twice: once
    as the last turn of the history, once as the current message. *)
Lemma request_for_user_twice sp t w s :
  request_for sp (conversation_history (with_user_turn t w s)) t
  = Message "system" sp
    :: map GroqService.history_message (slice_last 9 (conversation_history s))
    ++ [Message "user" t; Message "user" t].
Proof.
  unfold request_for, with_user_turn, appended. cbn [conversation_history].
  rewrite slice_last_slice_last by lia. rewrite slice_last_snoc.
  rewrite map_app, <- app_assoc. reflexivity.
Qed.

(** C2, amended. When the call of [generate_response] raises, the invocation
    itself returns normally; the user turn has been appended to the history
    of the session (capped at 30) and its [last_activity] set, its mode and
    mode data are as before, no other session changes, no reply is appended,
    and the events sent are [ai-thinking] followed by one [error] event that
    carries the exception. *)
Theorem failed_turn_records_user_turn (cid : string) (data : gmap string value)
    (w : world) (sid : string) (s : session) (t : string) (e : exn) :
  connection_sessions w !! cid = Some sid ->
  sessions w !! sid = Some s ->
  App.text_of data = inr t ->
  PyStr.is_empty t = false ->
  (llm_call py_str t w s w).1 = inl e ->
  exists w' s',
    App.handle_text_message py_str cid data w = (inr tt, w')
    /\ sessions w' = <[sid := s']> (sessions w)
    /\ conversation_history s'
       = slice_last 30 (conversation_history s ++ [Turn "user" t (clock w (ticks w))])
    /\ last_activity s' = clock w (S (ticks w))
    /\ mode s' = mode s
    /\ mode_specific_data s' = mode_specific_data s
    /\ outbox w' = outbox w ++ [(cid, AiThinking "generating");
                                (cid, ErrorEvent "Error processing your message" e)].
Proof.
  intros Hc Hs Ht Hne Hfail.
  eexists. exists (with_user_turn t w s).
  split; [by apply handle_text_message_failure|]. done.
Qed.

(** C3. When the call of [generate_response] raises, the history of the
    session afterwards is the previous history followed by the user turn
    alone (capped at 30), and the events sent are [ai-thinking] and one
    [error] event.  A following invocation whose call succeeds appends its
    user turn and the reply after it: the user turn of the failed invocation
    is still in the history. *)
Theorem failed_turn_then_successful_turn (cid : string)
    (data1 data2 : gmap string value) (w w1 : world) (sid : string) (s : session)
    (t1 t2 : string) (e : exn) (r : response) :
  connection_sessions w !! cid = Some sid ->
  sessions w !! sid = Some s ->
  App.text_of data1 = inr t1 ->
  PyStr.is_empty t1 = false ->
  (llm_call py_str t1 w s w).1 = inl e ->
  w1 = (App.handle_text_message py_str cid data1 w).2 ->
  App.text_of data2 = inr t2 ->
  PyStr.is_empty t2 = false ->
  (llm_call py_str t2 w1 (with_user_turn t1 w s) w1).1 = inr r ->
  let u1 := Turn "user" t1 (clock w (ticks w)) in
  let u2 := Turn "user" t2 (clock w (S (S (ticks w)))) in
  let a2 := Turn "ai" (resp_text r) (clock w (S (S (S (S (ticks w)))))) in
  (App.handle_text_message py_str cid data1 w).1 = inr tt
  /\ (conversation_history <$> sessions w1 !! sid)
     = Some (slice_last 30 (conversation_history s ++ [u1]))
  /\ outbox w1 = outbox w ++ [(cid, AiThinking "generating");
                              (cid, ErrorEvent "Error processing your message" e)]
  /\ exists w2,
       App.handle_text_message py_str cid data2 w1 = (inr tt, w2)
       /\ (conversation_history <$> sessions w2 !! sid)
          = Some (slice_last 30 (conversation_history s ++ [u1; u2; a2]))
       /\ u1 ∈ slice_last 30 (conversation_history s ++ [u1; u2; a2])
       /\ outbox w2 = outbox w1 ++
            [(cid, AiThinking "generating");
             (cid, AiResponse (resp_text r) (GroqService.text_to_speech (resp_text r))
                     (resp_mode_data r)
                     (clock w (S (S (S (S (S (S (ticks w))))))) * 1000))].
Proof.
  intros Hc Hs Ht1 Hne1 Hfail Hw1 Ht2 Hne2 Hok u1 u2 a2.
  rewrite (handle_text_message_failure _ _ _ _ _ _ _ Hc Hs Ht1 Hne1 Hfail) in Hw1.
  cbn [snd] in Hw1.
  assert (connection_sessions w1 !! cid = Some sid) as Hc1 by (by subst w1).
  assert (sessions w1 !! sid = Some (with_user_turn t1 w s)) as Hs1.
  { subst w1. cbn. apply lookup_insert_eq. }
  assert (clock w1 = clock w) as Hclock by (by subst w1).
  assert (ticks w1 = S (S (ticks w))) as Hticks by (by subst w1).
  split; [by rewrite (handle_text_message_failure _ _ _ _ _ _ _ Hc Hs Ht1 Hne1 Hfail)|].
  split; [by rewrite Hs1|].
  split; [by subst w1|].
  eexists. split; [by apply (handle_text_message_success _ _ _ _ _ _ _ Hc1 Hs1 Ht2 Hne2 Hok)|].
  cbn [sessions outbox]. rewrite lookup_insert_eq, Hclock, Hticks.
  assert (conversation_history (with_ai_turn t2 w1 (with_user_turn t1 w s) r)
          = slice_last 30 (conversation_history s ++ [u1; u2; a2])) as Hh.
  { unfold with_ai_turn, with_user_turn, appended, set_mode_specific_data.
    cbn [conversation_history]. rewrite Hclock, Hticks.
    rewrite slice_last_app_absorb, <- app_assoc.
    rewrite slice_last_app_absorb, <- app_assoc. reflexivity. }
  split; [by rewrite <- Hh|]. split; [|done].
  rewrite slice_last_app_short by (cbn; lia).
  apply elem_of_app. right. apply elem_of_cons. by left.
Qed.

(** C5. When the Groq client exists and the system prompt of the mode can be
    built, the invocation sends one request of at most 12 messages: the
    system prompt with role [system]; then the last 10 turns of the history
    as it is after the user turn was appended, oldest first, a turn of role
    [user] as a [user] message and a turn of any other role (the [ai] turns)
    as an [assistant] message, each with the text of the turn; then the text
    of the user as a final [user] message.  The last of those turns is the
    user turn just appended, so the request ends with the same [user]
    message twice, after the last 9 turns of the previous history. *)
Theorem request_sent_to_llm (cid : string) (data : gmap string value) (w : world)
    (sid : string) (s : session) (t : string)
    (api : nat -> list message -> completion) (sp : string) :
  connection_sessions w !! cid = Some sid ->
  sessions w !! sid = Some s ->
  App.text_of data = inr t ->
  PyStr.is_empty t = false ->
  client w = Some api ->
  GroqService._get_system_prompt py_str (mode s) (mode_specific_data s) = inr sp ->
  let history :=
    slice_last 30 (conversation_history s ++ [Turn "user" t (clock w (ticks w))]) in
  let as_message (u : turn) :=
    Message (if String.eqb (role u) "user" then "user" else "assistant") (text u) in
  let sent :=
    Message "system" sp
    :: map as_message (slice_last 10 history)
    ++ [Message "user" t] in
  exists w',
    App.handle_text_message py_str cid data w = (inr tt, w')
    /\ requests w' = requests w ++ [sent]
    /\ sent = Message "system" sp
              :: map as_message (slice_last 9 (conversation_history s))
              ++ [Message "user" t; Message "user" t]
    /\ (forall x ts,
          as_message (Turn "user" x ts) = Message "user" x
          /\ as_message (Turn "ai" x ts) = Message "assistant" x)
    /\ (forall m, m ∈ sent ->
          msg_role m = "system" \/ msg_role m = "user" \/ msg_role m = "assistant")
    /\ (length sent <= 12)%nat.
Proof.
  intros Hc Hs Ht Hne Hapi Hsp history as_message sent.
  assert (requests (llm_call py_str t w s w).2 = requests w ++ [sent]) as Hreq.
  { unfold llm_call. rewrite generate_response_run, Hapi, Hsp.
    unfold request_for, GroqService.history_message. reflexivity. }
  assert (sent = Message "system" sp
                 :: map as_message (slice_last 9 (conversation_history s))
                 ++ [Message "user" t; Message "user" t]) as Hsent.
  { subst sent history. rewrite slice_last_slice_last by lia.
    rewrite slice_last_snoc, map_app, <- app_assoc. reflexivity. }
  assert (forall m, m ∈ sent ->
            msg_role m = "system" \/ msg_role m = "user" \/ msg_role m = "assistant")
    as Hroles.
  { intros m Hm. subst sent. apply elem_of_cons in Hm as [->|Hm]; [by left|].
    apply elem_of_app in Hm as [Hm|Hm].
    - apply list_elem_of_fmap in Hm as (u & -> & _). subst as_message. cbn.
      destruct (String.eqb (role u) "user"); [right; by left|right; by right].
    - apply elem_of_cons in Hm as [->|Hm%elem_of_nil]; [right; by left|done]. }
  assert ((length sent <= 12)%nat) as Hlen.
  { subst sent. cbn [length]. rewrite length_app, length_map, length_slice_last.
    cbn [length]. lia. }
  destruct ((llm_call py_str t w s w).1) as [e|r] eqn:Hcall.
  - eexists. split; [by apply handle_text_message_failure|].
    cbn [requests]. do 2 (split; [done|]). split; [|done]. by intros x ts.
  - eexists. split; [by apply handle_text_message_success|].
    cbn [requests]. do 2 (split; [done|]). split; [|done]. by intros x ts.
Qed.

End Handler.

(** ** The turn properties on concrete worlds *)

(** C2, as stated, fails: on [failing_world] the call of [generate_response]
    raises, and the store after the invocation differs from the store
    before it, the history of ["s1"] having gained the user turn. *)
Lemma failed_turn_changes_store :
  (llm_call scalar_str "hello" failing_world demo_session failing_world).1
    = inl rate_limited
  /\ sessions (App.handle_text_message scalar_str "c1" hello_event failing_world).2
     <> sessions failing_world
  /\ (conversation_history <$> sessions failing_world !! "s1") = Some []
  /\ (conversation_history <$>
        sessions (App.handle_text_message scalar_str "c1" hello_event failing_world).2
          !! "s1") = Some [Turn "user" "hello" 1000].
Proof.
  assert ((conversation_history <$>
        sessions (App.handle_text_message scalar_str "c1" hello_event failing_world).2
          !! "s1") = Some [Turn "user" "hello" 1000]) as Hafter
    by (vm_compute; reflexivity).
  split; [vm_compute; reflexivity|].
  split; [|split; [vm_compute; reflexivity | exact Hafter]].
  intros Heq. rewrite Heq in Hafter. vm_compute in Hafter. discriminate.
Qed.

Lemma failed_turn_records_user_turn_witness :
  exists w' s',
    App.handle_text_message scalar_str "c1" hello_event failing_world = (inr tt, w')
    /\ sessions w' = <[ "s1" := s' ]> (sessions failing_world)
    /\ conversation_history s' = [Turn "user" "hello" 1000]
    /\ last_activity s' = 1001
    /\ mode s' = "chat"
    /\ mode_specific_data s' = mode_specific_data demo_session
    /\ outbox w' = [("c1", AiThinking "generating");
                    ("c1", ErrorEvent "Error processing your message" rate_limited)].
Proof.
  apply (failed_turn_records_user_turn scalar_str "c1" hello_event failing_world
           "s1" demo_session "hello" rate_limited); vm_compute; reflexivity.
Defined.

Lemma failed_turn_then_successful_turn_witness :
  let w1 := (App.handle_text_message scalar_str "c1" hello_event flaky_world).2 in
  (conversation_history <$> sessions w1 !! "s1") = Some [Turn "user" "hello" 1000]
  /\ outbox w1 = [("c1", AiThinking "generating");
                  ("c1", ErrorEvent "Error processing your message" rate_limited)]
  /\ exists w2,
       App.handle_text_message scalar_str "c1" again_event w1 = (inr tt, w2)
       /\ (conversation_history <$> sessions w2 !! "s1")
          = Some [Turn "user" "hello" 1000; Turn "user" "are you there" 1002;
                  Turn "ai" "I am fine. And you?" 1004]
       /\ outbox w2 = outbox w1 ++
            [("c1", AiThinking "generating");
             ("c1", AiResponse "I am fine. And you?"
                      (Audio "I am fine. And you?" "text" 950) ∅ 1006000)].
Proof.
  intros w1.
  destruct (failed_turn_then_successful_turn scalar_str "c1" hello_event again_event
              flaky_world w1 "s1" demo_session "hello" "are you there" rate_limited
              (Response "I am fine. And you?" ∅))
    as (_ & Hh1 & Ho1 & w2 & Hrun & Hh2 & _ & Ho2);
    try (vm_compute; reflexivity).
  split; [exact Hh1|]. split; [exact Ho1|].
  exists w2. split; [exact Hrun|]. split; [exact Hh2|exact Ho2].
Defined.

Lemma request_sent_to_llm_witness :
  exists w',
    App.handle_text_message scalar_str "c1" hello_event chatty_world = (inr tt, w')
    /\ requests w'
       = [[Message "system" GroqService.chat_prompt;
           Message "assistant" "D"; Message "user" "E"; Message "assistant" "F";
           Message "user" "G"; Message "assistant" "H"; Message "user" "I";
           Message "assistant" "J"; Message "user" "K"; Message "assistant" "L";
           Message "user" "hello"; Message "user" "hello"]].
Proof.
  destruct (request_sent_to_llm scalar_str "c1" hello_event chatty_world "s1"
              chatty_session "hello" (fun _ _ => ApiRaises "rate limit exceeded")
              GroqService.chat_prompt)
    as (w' & Hrun & Hreq & _); try (vm_compute; reflexivity).
  exists w'. split; [exact Hrun|]. rewrite Hreq. vm_compute. reflexivity.
Defined.

(** * Further properties of the code *)

(** ** The session store *)

(** X1. [create_session] followed by [get_session] on the returned
    identifier gives the new session, for every mode and config: the given
    mode, an empty history, the initial data of the mode and the two clock
    readings.  Every other identifier of the store is as before, and the
    connection bindings, the request log and the outbox are untouched. *)
Theorem create_session_then_get (m : string) (config : option (gmap string value))
    (w : world) :
  exists w',
    SessionManager.create_session m config w = (inr (uuid4 w (uuids w)), w')
    /\ SessionManager.get_session (uuid4 w (uuids w)) w'
       = (inr (Some (Session (uuid4 w (uuids w)) m []
                       (SessionManager._initialize_mode_data m (default ∅ config))
                       (clock w (ticks w)) (clock w (S (ticks w))))), w')
    /\ (forall k, k <> uuid4 w (uuids w) -> sessions w' !! k = sessions w !! k)
    /\ connection_sessions w' = connection_sessions w
    /\ requests w' = requests w
    /\ outbox w' = outbox w.
Proof.
  eexists. split; [apply create_session_run|].
  split.
  - unfold SessionManager.get_session, gets. cbn. by rewrite lookup_insert_eq.
  - split; [|done]. intros k Hk. cbn. by rewrite lookup_insert_ne.
Qed.

Lemma delete_session_present sid w :
  is_Some (sessions w !! sid) ->
  SessionManager.delete_session sid w
  = (inr tt, set_sessions (delete sid (sessions w)) w).
Proof.
  intros Hs. unfold SessionManager.delete_session, modify. by rewrite decide_True.
Qed.

Lemma delete_session_run sid w :
  SessionManager.delete_session sid w
  = (inr tt, set_sessions (delete sid (sessions w)) w).
Proof.
  destruct (sessions w !! sid) as [s|] eqn:Hs.
  - apply delete_session_present. by rewrite Hs.
  - rewrite (delete_session_absent _ _ Hs). f_equal.
    rewrite delete_id by done. by destruct w.
Qed.

(** X2. After [delete_session] the identifier is not in the store, every
    other session is as before, the clock has not been read, and deleting
    the same identifier again changes nothing. *)
Theorem delete_session_removes_once (sid : string) (w : world) :
  exists w',
    SessionManager.delete_session sid w = (inr tt, w')
    /\ SessionManager.get_session sid w' = (inr None, w')
    /\ (forall k, k <> sid -> sessions w' !! k = sessions w !! k)
    /\ ticks w' = ticks w
    /\ SessionManager.delete_session sid w' = (inr tt, w').
Proof.
  eexists. split; [apply delete_session_run|].
  split.
  - unfold SessionManager.get_session, gets. cbn. by rewrite lookup_delete_eq.
  - split; [|split; [done|]].
    + intros k Hk. cbn. by rewrite lookup_delete_ne.
    + apply delete_session_absent. cbn. apply lookup_delete_eq.
Qed.

(** The keys of the initial data of a mode. *)
Lemma dom_initialize_mode_data (m : string) (config : gmap string value) :
  dom (SessionManager._initialize_mode_data m config)
  = if String.eqb m "interview"
    then {[ "role"; "company"; "question_index"; "total_questions";
            "scores"; "evaluations" ]}
    else if String.eqb m "debate"
    then {[ "topic"; "stance"; "arguments_made"; "counter_arguments" ]}
    else ({[ "user_preferences"; "emotional_tone" ]} : gset string).
Proof.
  unfold SessionManager._initialize_mode_data.
  destruct (String.eqb m "interview"); [|destruct (String.eqb m "debate")];
    rewrite !dom_insert_L, dom_singleton_L; set_solver.
Qed.

(** X3. [change_mode] on a session of the store replaces the mode data
    wholesale: the new data is the initial data of the new mode, with
    exactly the keys of that mode, whatever the old data held; the history,
    the identifier and the creation time are kept. *)
Theorem change_mode_discards_context (sid new_mode : string)
    (config : option (gmap string value)) (w : world) (s : session) :
  sessions w !! sid = Some s ->
  exists w' s',
    SessionManager.change_mode sid new_mode config w = (inr tt, w')
    /\ sessions w' !! sid = Some s'
    /\ mode s' = new_mode
    /\ mode_specific_data s'
       = SessionManager._initialize_mode_data new_mode (default ∅ config)
    /\ dom (mode_specific_data s')
       = (if String.eqb new_mode "interview"
          then {[ "role"; "company"; "question_index"; "total_questions";
                  "scores"; "evaluations" ]}
          else if String.eqb new_mode "debate"
          then {[ "topic"; "stance"; "arguments_made"; "counter_arguments" ]}
          else ({[ "user_preferences"; "emotional_tone" ]} : gset string))
    /\ (forall k, k ∉ dom (SessionManager._initialize_mode_data new_mode (default ∅ config)) ->
          mode_specific_data s' !! k = None)
    /\ conversation_history s' = conversation_history s
    /\ session_id s' = session_id s
    /\ created_at s' = created_at s.
Proof.
  intros Hs. eexists. eexists.
  split; [by apply change_mode_present|].
  split; [cbn; apply lookup_insert_eq|].
  cbn. repeat split; try done.
  - apply dom_initialize_mode_data.
  - intros k Hk. by apply not_elem_of_dom.
Qed.

Lemma change_mode_discards_context_witness :
  exists w' s',
    SessionManager.change_mode "s1" "debate" (Some {[ "topic" := VStr "X" ]}) demo_world
      = (inr tt, w')
    /\ sessions w' !! "s1" = Some s'
    /\ mode s' = "debate"
    /\ mode_specific_data s' !! "topic" = Some (VStr "X")
    /\ mode_specific_data s' !! "user_preferences" = None
    /\ mode_specific_data s' !! "emotional_tone" = None.
Proof.
  destruct (change_mode_discards_context "s1" "debate" (Some {[ "topic" := VStr "X" ]})
              demo_world demo_session eq_refl)
    as (w' & s' & Hrun & Hs & Hm & Hd & _ & Hnone & _).
  exists w', s'. split; [exact Hrun|]. split; [exact Hs|]. split; [exact Hm|].
  split; [by rewrite Hd|].
  split; apply Hnone; vm_compute; set_solver.
Defined.

(** X4. [update_mode_data] on a session of the store is a shallow merge: a
    key of the patch gets the value of the patch, every other key keeps its
    value, and the history, the mode and the timestamps are kept.  Merging
    the same patch again changes nothing. *)
Theorem update_mode_data_merges (sid : string) (patch : gmap string value)
    (w : world) (s : session) :
  sessions w !! sid = Some s ->
  exists w' s',
    SessionManager.update_mode_data sid patch w = (inr tt, w')
    /\ sessions w' !! sid = Some s'
    /\ (forall k v, patch !! k = Some v -> mode_specific_data s' !! k = Some v)
    /\ (forall k, patch !! k = None ->
          mode_specific_data s' !! k = mode_specific_data s !! k)
    /\ conversation_history s' = conversation_history s
    /\ mode s' = mode s
    /\ created_at s' = created_at s
    /\ last_activity s' = last_activity s
    /\ SessionManager.update_mode_data sid patch w' = (inr tt, w').
Proof.
  intros Hs. eexists. eexists.
  split; [by apply update_mode_data_present|].
  split; [cbn; apply lookup_insert_eq|].
  split; [cbn; intros k v Hk; by apply lookup_union_Some_l|].
  split; [cbn; intros k Hk; by apply lookup_union_r|].
  do 4 (split; [done|]).
  erewrite update_mode_data_present; [|cbn; apply lookup_insert_eq].
  unfold set_sessions. cbn. rewrite insert_insert_eq.
  by rewrite (assoc_L (∪)), (idemp_L (∪)).
Qed.

Lemma update_mode_data_merges_witness :
  exists w' s',
    SessionManager.update_mode_data "s1" {[ "emotional_tone" := VStr "calm" ]} demo_world
      = (inr tt, w')
    /\ sessions w' !! "s1" = Some s'
    /\ mode_specific_data s' !! "emotional_tone" = Some (VStr "calm")
    /\ mode_specific_data s' !! "user_preferences" = Some (VDict [])
    /\ SessionManager.update_mode_data "s1" {[ "emotional_tone" := VStr "calm" ]} w'
       = (inr tt, w').
Proof.
  destruct (update_mode_data_merges "s1" {[ "emotional_tone" := VStr "calm" ]}
              demo_world demo_session eq_refl)
    as (w' & s' & Hrun & Hs & Hin & Hout & _ & _ & _ & _ & Hagain).
  exists w', s'. split; [exact Hrun|]. split; [exact Hs|].
  split; [by apply Hin|]. split; [by rewrite Hout|exact Hagain].
Defined.

(** X5. A store operation on one identifier never changes the session
    stored under another identifier, whether or not the first identifier is
    in the store. *)
Theorem store_operations_are_isolated (sid k : string) (w : world)
    (r t new_mode : string) (config : option (gmap string value))
    (patch : gmap string value) :
  k <> sid ->
  sessions (SessionManager.add_message sid r t w).2 !! k = sessions w !! k
  /\ sessions (SessionManager.change_mode sid new_mode config w).2 !! k = sessions w !! k
  /\ sessions (SessionManager.update_mode_data sid patch w).2 !! k = sessions w !! k
  /\ sessions (SessionManager.delete_session sid w).2 !! k = sessions w !! k.
Proof.
  intros Hk.
  destruct (sessions w !! sid) as [s|] eqn:Hs.
  - rewrite (add_message_present _ _ _ _ _ Hs), (change_mode_present _ _ _ _ _ Hs),
      (update_mode_data_present _ _ _ _ Hs), delete_session_run.
    cbn. rewrite !lookup_insert_ne by done. by rewrite lookup_delete_ne.
  - by rewrite (add_message_absent _ _ _ _ Hs), (change_mode_absent _ _ _ _ Hs),
      (update_mode_data_absent _ _ _ Hs), (delete_session_absent _ _ Hs).
Qed.

Lemma store_operations_are_isolated_witness :
  sessions (SessionManager.add_message "young" "user" "hi" reaper_world).2 !! "old"
    = sessions reaper_world !! "old"
  /\ sessions (SessionManager.change_mode "young" "debate" None reaper_world).2 !! "old"
    = sessions reaper_world !! "old"
  /\ sessions (SessionManager.update_mode_data "young" ∅ reaper_world).2 !! "old"
    = sessions reaper_world !! "old"
  /\ sessions (SessionManager.delete_session "young" reaper_world).2 !! "old"
    = sessions reaper_world !! "old".
Proof.
  apply (store_operations_are_isolated "young" "old" reaper_world "user" "hi"
           "debate" None ∅).
  discriminate.
Defined.

(** ** Runs of store operations *)

Lemma world_eta (w : world) :
  w = World (clock w) (ticks w) (uuid4 w) (uuids w) (client w) (requests w)
            (sessions w) (connection_sessions w) (outbox w).
Proof. by destruct w. Qed.

(** A store operation returns normally; it changes the sessions and reads
    the clock and the identifier oracle, and nothing else. *)
Lemma run_op_shape (op : store_op) (w : world) :
  exists n u ss,
    run_op op w = (inr tt, World (clock w) n (uuid4 w) u (client w) (requests w) ss
                             (connection_sessions w) (outbox w))
    /\ (ticks w <= n)%nat.
Proof.
  destruct op as [m c|sid|sid r t|sid m c|sid d|sid|a]; cbn [run_op].
  - unfold bind. rewrite create_session_run. do 3 eexists. split; [reflexivity|]. cbn. lia.
  - exists (ticks w), (uuids w), (sessions w). split; [|reflexivity].
    unfold bind, SessionManager.get_session, gets, ret. by rewrite <- world_eta.
  - destruct (sessions w !! sid) as [s|] eqn:Hs.
    + rewrite (add_message_present _ _ _ _ _ Hs). do 3 eexists.
      split; [reflexivity|]. cbn. lia.
    + rewrite (add_message_absent _ _ _ _ Hs). exists (ticks w), (uuids w), (sessions w).
      split; [|reflexivity]. by rewrite <- world_eta.
  - destruct (sessions w !! sid) as [s|] eqn:Hs.
    + rewrite (change_mode_present _ _ _ _ _ Hs). do 3 eexists.
      split; [reflexivity|]. cbn. lia.
    + rewrite (change_mode_absent _ _ _ _ Hs). exists (ticks w), (uuids w), (sessions w).
      split; [|reflexivity]. by rewrite <- world_eta.
  - destruct (sessions w !! sid) as [s|] eqn:Hs.
    + rewrite (update_mode_data_present _ _ _ _ Hs). do 3 eexists.
      split; [reflexivity|]. cbn. lia.
    + rewrite (update_mode_data_absent _ _ _ Hs). exists (ticks w), (uuids w), (sessions w).
      split; [|reflexivity]. by rewrite <- world_eta.
  - rewrite delete_session_run. do 3 eexists. split; [reflexivity|]. cbn. lia.
  - do 3 eexists. split; [reflexivity|]. cbn. lia.
Qed.

Lemma run_op_provenance (op : store_op) (w : world) (k : string) (s' : session) :
  sessions (run_op op w).2 !! k = Some s' -> provenance op w k s'.
Proof.
  destruct op as [m c|sid|sid r t|sid m c|sid d|sid|a]; cbn [run_op].
  - unfold bind. rewrite create_session_run. cbn.
    destruct (decide (k = uuid4 w (uuids w))) as [->|Hne].
    + rewrite lookup_insert_eq. intros [= <-]. by eapply Created.
    + rewrite lookup_insert_ne by done. apply Kept.
  - apply Kept.
  - destruct (sessions w !! sid) as [s|] eqn:Hs.
    + rewrite (add_message_present _ _ _ _ _ Hs). cbn.
      destruct (decide (k = sid)) as [->|Hne].
      * rewrite lookup_insert_eq. intros [= <-]. by eapply Appended.
      * rewrite lookup_insert_ne by done. apply Kept.
    + rewrite (add_message_absent _ _ _ _ Hs). apply Kept.
  - destruct (sessions w !! sid) as [s|] eqn:Hs.
    + rewrite (change_mode_present _ _ _ _ _ Hs). cbn.
      destruct (decide (k = sid)) as [->|Hne].
      * rewrite lookup_insert_eq. intros [= <-]. by eapply Switched.
      * rewrite lookup_insert_ne by done. apply Kept.
    + rewrite (change_mode_absent _ _ _ _ Hs). apply Kept.
  - destruct (sessions w !! sid) as [s|] eqn:Hs.
    + rewrite (update_mode_data_present _ _ _ _ Hs). cbn.
      destruct (decide (k = sid)) as [->|Hne].
      * rewrite lookup_insert_eq. intros [= <-]. by eapply Merged.
      * rewrite lookup_insert_ne by done. apply Kept.
    + rewrite (update_mode_data_absent _ _ _ Hs). apply Kept.
  - rewrite delete_session_run. cbn. intros Hk. apply Kept.
    by apply lookup_delete_Some in Hk as [_ Hk].
  - destruct (cleanup_old_sessions_lookup a w k) as [_ Hlook].
    rewrite Hlook. destruct (sessions w !! k) as [s|] eqn:Hs; [|done].
    case_decide; [done|]. intros [= <-]. by apply Kept.
Qed.

Lemma run_ops_cons (op : store_op) (ops : list store_op) (w : world) :
  run_ops (op :: ops) w = run_ops ops (run_op op w).2.
Proof.
  cbn [run_ops]. unfold bind.
  destruct (run_op_shape op w) as (n & u & ss & -> & _). reflexivity.
Qed.

Lemma run_op_store_ok (op : store_op) (w : world) :
  store_ok w -> store_ok (run_op op w).2.
Proof.
  intros Hok k s' Hk.
  destruct (run_op_provenance op w k s' Hk)
    as [Hs|m c _ -> ->|s r t _ Hs ->|s m c _ Hs ->|s d _ Hs ->]; cbn.
  - by apply Hok.
  - split; [done|]. cbn. lia.
  - destruct (Hok _ _ Hs) as [Hid _]. split; [done|].
    rewrite length_slice_last. lia.
  - by apply Hok.
  - by apply Hok.
Qed.

(** X6. Every run of store operations returns normally and keeps the
    invariant of the store: each session is stored under its own
    [session_id] and its history has at most 30 turns.  The run does not
    touch the connection bindings, the request log or the outbox, and the
    clock readings only advance. *)
Theorem store_invariant (ops : list store_op) (w : world) :
  store_ok w ->
  exists w',
    run_ops ops w = (inr tt, w')
    /\ store_ok w'
    /\ connection_sessions w' = connection_sessions w
    /\ requests w' = requests w
    /\ outbox w' = outbox w
    /\ clock w' = clock w
    /\ (ticks w <= ticks w')%nat.
Proof.
  revert w. induction ops as [|op ops IH]; intros w Hok.
  - exists w. do 6 (split; [done|]). lia.
  - rewrite run_ops_cons.
    destruct (IH _ (run_op_store_ok op w Hok)) as (w' & Hrun & Hok' & Hc & Hr & Ho & Hclk & Ht).
    exists w'. split; [done|]. split; [done|].
    destruct (run_op_shape op w) as (n & u & ss & Hshape & Hn).
    rewrite Hshape in Hc, Hr, Ho, Hclk, Ht. cbn in Hc, Hr, Ho, Hclk, Ht.
    do 4 (split; [done|]). lia.
Qed.

Lemma store_ok_demo_world : store_ok demo_world.
Proof.
  intros k s Hk. cbn in Hk. apply lookup_singleton_Some in Hk as [<- <-].
  split; [done|]. cbn. lia.
Qed.

Lemma store_invariant_witness :
  exists w',
    run_ops busy_run demo_world = (inr tt, w')
    /\ store_ok w'
    /\ connection_sessions w' = connection_sessions demo_world
    /\ requests w' = requests demo_world
    /\ outbox w' = outbox demo_world
    /\ clock w' = clock demo_world
    /\ (ticks demo_world <= ticks w')%nat.
Proof.
  apply (store_invariant busy_run demo_world). apply store_ok_demo_world.
Defined.

Lemma run_op_last_activity (op : store_op) (w : world) (sid : string) (b : Z) :
  monotone_clock w ->
  b <= clock w (ticks w) ->
  (forall s, sessions w !! sid = Some s -> b <= last_activity s) ->
  monotone_clock (run_op op w).2
  /\ b <= clock (run_op op w).2 (ticks (run_op op w).2)
  /\ (forall s, sessions (run_op op w).2 !! sid = Some s -> b <= last_activity s).
Proof.
  intros Hmono Hb Hs.
  destruct (run_op_shape op w) as (n & u & ss & Hshape & Hn).
  split; [|split].
  - rewrite Hshape. exact Hmono.
  - rewrite Hshape. cbn. etrans; [exact Hb|]. by apply Hmono.
  - intros s' Hs'.
    destruct (run_op_provenance op w sid s' Hs')
      as [Hk|m c _ _ ->|s r t _ Hk ->|s m c _ Hk ->|s d _ Hk ->]; cbn.
    + by apply Hs.
    + etrans; [exact Hb|]. apply Hmono. lia.
    + etrans; [exact Hb|]. apply Hmono. lia.
    + exact Hb.
    + by apply Hs.
Qed.

Lemma run_ops_last_activity (ops : list store_op) (sid : string) (b : Z) : forall w,
  monotone_clock w ->
  b <= clock w (ticks w) ->
  (forall s, sessions w !! sid = Some s -> b <= last_activity s) ->
  forall s', sessions (run_ops ops w).2 !! sid = Some s' -> b <= last_activity s'.
Proof.
  induction ops as [|op ops IH]; intros w Hmono Hb Hs s'.
  - cbn. apply Hs.
  - rewrite run_ops_cons.
    destruct (run_op_last_activity op w sid b Hmono Hb Hs) as (Hmono' & Hb' & Hs').
    by apply IH.
Qed.

(** X7. When the clock never goes back and a session was last active no
    later than the present reading, then after every run of store
    operations the session stored under its identifier, if there is one, has
    a [last_activity] that is not lower. *)
Theorem last_activity_monotone (ops : list store_op) (w : world) (sid : string)
    (s s' : session) :
  monotone_clock w ->
  sessions w !! sid = Some s ->
  last_activity s <= clock w (ticks w) ->
  sessions (run_ops ops w).2 !! sid = Some s' ->
  last_activity s <= last_activity s'.
Proof.
  intros Hmono Hs Hb Hs'.
  apply (run_ops_last_activity ops sid (last_activity s) w Hmono Hb); [|exact Hs'].
  intros s0 Hs0. rewrite Hs in Hs0. injection Hs0 as <-. lia.
Qed.

Lemma monotone_demo_clock : monotone_clock demo_world.
Proof. intros i j Hij. cbn. unfold demo_clock. lia. Qed.

Lemma last_activity_monotone_witness :
  last_activity demo_session
  <= last_activity (Session "s1" "debate" [Turn "user" "hi" 1000]
                      (SessionManager._initialize_mode_data "debate" ∅) 1000 1002).
Proof.
  apply (last_activity_monotone
           [OpAddMessage "s1" "user" "hi"; OpChangeMode "s1" "debate" None;
            OpUpdateModeData "s1" ∅]
           demo_world "s1" demo_session).
  - apply monotone_demo_clock.
  - reflexivity.
  - vm_compute. discriminate.
  - vm_compute. reflexivity.
Defined.

(** ** Mode logic *)

Lemma length_take (n : nat) (s : string) :
  String.length (PyStr.take n s) = Nat.min n (String.length s).
Proof.
  revert s. induction n as [|n IH]; intros [|c s]; cbn; try done.
  by rewrite IH.
Qed.

Lemma prefix_take (n : nat) (s : string) : String.prefix (PyStr.take n s) s = true.
Proof.
  revert s. induction n as [|n IH]; intros [|c s]; cbn; try done.
  rewrite IH. by destruct (ascii_dec c c).
Qed.

(** The entries that a run of debate turns adds to [arguments_made]. *)
Lemma post_turn_debate (mode_data : gmap string value) (made : list value) u a :
  dict_get mode_data "arguments_made" (VList []) = VList made ->
  post_turn "debate" mode_data u a
  = inr (<[ "arguments_made" := VList (made ++ [VStr (PyStr.take 50 a)]) ]> mode_data).
Proof.
  intros Hmade. unfold post_turn, GroqService._process_mode_logic.
  cbn [String.eqb Ascii.eqb Bool.eqb]. rewrite Hmade.
  by rewrite insert_union_singleton_l.
Qed.

(** X8. In debate mode, when [arguments_made] is a list (or is missing),
    every run of turns succeeds and appends one entry per reply, in order,
    after the entries already there: the first 50 characters of the reply.
    Each new entry is a prefix of its reply of at most 50 characters, and no
    other key of the mode data changes. *)
Theorem debate_arguments_grow (mode_data : gmap string value) (made : list value)
    (turns : list (string * string)) :
  dict_get mode_data "arguments_made" (VList []) = VList made ->
  exists mode_data',
    debate_turns mode_data turns = inr mode_data'
    /\ dict_get mode_data' "arguments_made" (VList [])
       = VList (made ++ map (fun p => VStr (PyStr.take 50 p.2)) turns)
    /\ (forall k, k <> "arguments_made" -> mode_data' !! k = mode_data !! k)
    /\ (forall p, p ∈ turns ->
          (String.length (PyStr.take 50 p.2) <= 50)%nat
          /\ String.prefix (PyStr.take 50 p.2) p.2 = true).
Proof.
  revert mode_data made. induction turns as [|[u a] turns IH]; intros mode_data made Hmade.
  - exists mode_data. cbn [debate_turns map]. rewrite app_nil_r.
    do 3 (split; [done|]). by intros q Hq%elem_of_nil.
  - cbn [debate_turns]. rewrite (post_turn_debate _ made u a Hmade).
    destruct (IH (<[ "arguments_made" := VList (made ++ [VStr (PyStr.take 50 a)]) ]> mode_data)
                (made ++ [VStr (PyStr.take 50 a)])) as (md' & Hrun & Hdict & Hother & Hlen).
    { unfold dict_get. by rewrite lookup_insert_eq. }
    exists md'. split; [done|]. split; [|split].
    + rewrite Hdict. cbn [map snd]. by rewrite <- app_assoc.
    + intros k Hk. rewrite Hother by done. by rewrite lookup_insert_ne.
    + intros p [->|Hp]%elem_of_cons; [|by apply Hlen].
      cbn [snd]. split; [|apply prefix_take]. rewrite length_take. lia.
Qed.

Lemma debate_arguments_grow_witness :
  exists mode_data',
    debate_turns (SessionManager._initialize_mode_data "debate" ∅)
      [("hi", "AI helps doctors."); ("no", "It also helps teachers.")] = inr mode_data'
    /\ dict_get mode_data' "arguments_made" (VList [])
       = VList [VStr "AI helps doctors."; VStr "It also helps teachers."]
    /\ mode_data' !! "stance" = Some (VStr "pro").
Proof.
  destruct (debate_arguments_grow (SessionManager._initialize_mode_data "debate" ∅) []
              [("hi", "AI helps doctors."); ("no", "It also helps teachers.")] eq_refl)
    as (md' & Hrun & Hdict & Hother & _).
  exists md'. split; [exact Hrun|]. split; [exact Hdict|].
  rewrite Hother by discriminate. reflexivity.
Defined.

(** ** Text messages: what is ignored and what fails *)

Lemma all_space_lstrip (s : string) : all_space (PyStr.lstrip s) = all_space s.
Proof.
  induction s as [|c s IH]; [done|]. cbn.
  destruct (PyStr.isspace c) eqn:Hc; [done|]. cbn. by rewrite Hc.
Qed.

Lemma rstrip_empty (s : string) : PyStr.rstrip s = "" <-> all_space s = true.
Proof.
  induction s as [|c s IH]; [done|]. cbn.
  destruct (PyStr.rstrip s) as [|d r] eqn:Hr.
  - destruct IH as [IH _]. rewrite (IH eq_refl), andb_true_r.
    by destruct (PyStr.isspace c).
  - split; [done|]. intros [_ Hs]%andb_prop. by apply IH in Hs.
Qed.

(** [s.strip()] is empty exactly when [s] holds nothing but spaces. *)
Lemma strip_empty (s : string) : PyStr.strip s = "" <-> all_space s = true.
Proof. unfold PyStr.strip. by rewrite rstrip_empty, all_space_lstrip. Qed.

Lemma is_empty_strip (s : string) : PyStr.is_empty (PyStr.strip s) = all_space s.
Proof.
  destruct (all_space s) eqn:Hs.
  - apply strip_empty in Hs. by rewrite Hs.
  - destruct (PyStr.strip s) eqn:Hstrip; [|done].
    apply strip_empty in Hstrip. congruence.
Qed.

Section TextMessages.

Variable py_str : value -> string.

Lemma handle_text_message_unbound cid data w :
  connection_sessions w !! cid = None ->
  App.handle_text_message py_str cid data w = (inr tt, w).
Proof.
  intros Hc. unfold App.handle_text_message, try_except, bind, gets. by rewrite Hc.
Qed.

Lemma handle_text_message_blank cid data w sid :
  connection_sessions w !! cid = Some sid ->
  App.text_of data = inr "" ->
  App.handle_text_message py_str cid data w = (inr tt, w).
Proof.
  intros Hc Ht. unfold App.handle_text_message, try_except, bind, gets, lift.
  by rewrite Hc, Ht.
Qed.

Lemma handle_text_message_no_session cid data w sid t :
  connection_sessions w !! cid = Some sid ->
  sessions w !! sid = None ->
  App.text_of data = inr t ->
  PyStr.is_empty t = false ->
  App.handle_text_message py_str cid data w
  = (inr tt,
     set_outbox (outbox w ++ [(cid, AiThinking "generating");
                              (cid, ErrorEvent "Error processing your message" TypeError)])
                w).
Proof.
  intros Hc Hs Ht Hne.
  unfold App.handle_text_message, try_except.
  unfold bind at 1. unfold gets at 1. rewrite Hc.
  unfold bind at 1. unfold lift at 1. rewrite Ht, Hne.
  unfold bind at 1. rewrite (add_message_absent _ _ _ _ Hs).
  unfold bind at 1. unfold SessionManager.get_session, gets at 1. rewrite Hs.
  unfold bind at 1. unfold App.send_json at 1, modify at 1.
  unfold bind at 1. unfold raise at 1.
  unfold App.send_json, modify, set_outbox. cbn. by rewrite <- app_assoc.
Qed.

(** X9. A text message on a bound connection whose [text] is a string is
    ignored, leaving the whole world as it was (no turn, no event, no
    request, no clock reading), exactly when the string holds nothing but
    white space.  A message on a connection that is not bound, or without a
    [text] key, is ignored as well. *)
Theorem blank_text_is_ignored_exactly (cid sid : string) (data : gmap string value)
    (s : string) (w : world) :
  connection_sessions w !! cid = Some sid ->
  data !! "text" = Some (VStr s) ->
  (App.handle_text_message py_str cid data w = (inr tt, w) <-> all_space s = true)
  /\ (forall cid' data',
        connection_sessions w !! cid' = None \/ data' !! "text" = None ->
        App.handle_text_message py_str cid' data' w = (inr tt, w)).
Proof.
  intros Hc Hd.
  assert (App.text_of data = inr (PyStr.strip s)) as Ht.
  { unfold App.text_of. by rewrite Hd. }
  split.
  - split.
    + intros Hrun. destruct (all_space s) eqn:Hsp; [done|exfalso].
      assert (PyStr.is_empty (PyStr.strip s) = false) as Hne
        by (by rewrite is_empty_strip).
      assert (forall o, (o ++ [(cid, AiThinking "generating")]) <> ([] : list (string * event)))
        as Hnil by (by intros [|??]).
      destruct (sessions w !! sid) as [ses|] eqn:Hs.
      * destruct ((llm_call py_str (PyStr.strip s) w ses w).1) as [e|r] eqn:Hcall.
        -- rewrite (handle_text_message_failure _ _ _ _ _ _ _ _ Hc Hs Ht Hne Hcall) in Hrun.
           apply (f_equal (fun p => length (outbox p.2))) in Hrun. cbn in Hrun.
           rewrite length_app in Hrun. cbn in Hrun. lia.
        -- rewrite (handle_text_message_success _ _ _ _ _ _ _ _ Hc Hs Ht Hne Hcall) in Hrun.
           apply (f_equal (fun p => length (outbox p.2))) in Hrun. cbn in Hrun.
           rewrite length_app in Hrun. cbn in Hrun. lia.
      * rewrite (handle_text_message_no_session _ _ _ _ _ Hc Hs Ht Hne) in Hrun.
        apply (f_equal (fun p => length (outbox p.2))) in Hrun. cbn in Hrun.
        rewrite length_app in Hrun. cbn in Hrun. lia.
    + intros Hsp. apply (handle_text_message_blank _ _ _ sid Hc).
      rewrite Ht. f_equal. by apply strip_empty.
  - intros cid' data' [Hc'|Hd'].
    + by apply handle_text_message_unbound.
    + destruct (connection_sessions w !! cid') as [sid'|] eqn:Hc';
        [|by apply handle_text_message_unbound].
      apply (handle_text_message_blank _ _ _ sid' Hc').
      unfold App.text_of. by rewrite Hd'.
Qed.

(** X10. A text message with a non-blank text on a connection bound to an
    identifier that is not in the store (deleted or reaped) makes no
    request and changes no session: the events are [ai-thinking] and one
    [error] carrying the [TypeError] of reading the missing session. *)
Theorem text_message_for_missing_session (cid sid : string)
    (data : gmap string value) (t : string) (w : world) :
  connection_sessions w !! cid = Some sid ->
  sessions w !! sid = None ->
  App.text_of data = inr t ->
  PyStr.is_empty t = false ->
  exists w',
    App.handle_text_message py_str cid data w = (inr tt, w')
    /\ sessions w' = sessions w
    /\ requests w' = requests w
    /\ ticks w' = ticks w
    /\ outbox w' = outbox w ++
         [(cid, AiThinking "generating");
          (cid, ErrorEvent "Error processing your message" TypeError)].
Proof.
  intros Hc Hs Ht Hne. eexists.
  split; [by apply (handle_text_message_no_session _ _ _ sid t)|]. done.
Qed.

(** X11. A text message whose [text] is not a string (a number, [null], a
    list, an object) on a bound connection stores nothing and makes no
    request: the only event is one [error] carrying the [AttributeError] of
    calling [strip] on it. *)
Theorem text_message_with_non_string_text (cid sid : string)
    (data : gmap string value) (v : value) (w : world) :
  connection_sessions w !! cid = Some sid ->
  data !! "text" = Some v ->
  (forall s, v <> VStr s) ->
  App.handle_text_message py_str cid data w
  = (inr tt,
     set_outbox (outbox w ++ [(cid, ErrorEvent "Error processing your message"
                                      AttributeError)]) w).
Proof.
  intros Hc Hd Hv.
  assert (App.text_of data = inl AttributeError) as Ht.
  { unfold App.text_of. rewrite Hd. destruct v; try done. by destruct (Hv s). }
  unfold App.handle_text_message, try_except, bind, gets, lift.
  by rewrite Hc, Ht.
Qed.

End TextMessages.

Lemma blank_text_is_ignored_exactly_witness :
  (App.handle_text_message scalar_str "c1" {[ "text" := VStr "   " ]} failing_world
   = (inr tt, failing_world) <-> all_space "   " = true)
  /\ (forall cid' data',
        connection_sessions failing_world !! cid' = None \/ data' !! "text" = None ->
        App.handle_text_message scalar_str cid' data' failing_world
        = (inr tt, failing_world)).
Proof.
  apply (blank_text_is_ignored_exactly scalar_str "c1" "s1" {[ "text" := VStr "   " ]}
           "   " failing_world); reflexivity.
Defined.

Lemma text_message_for_missing_session_witness :
  exists w',
    App.handle_text_message scalar_str "c1" hello_event
      (set_sessions ∅ failing_world) = (inr tt, w')
    /\ sessions w' = ∅
    /\ requests w' = []
    /\ ticks w' = 0%nat
    /\ outbox w' = [("c1", AiThinking "generating");
                    ("c1", ErrorEvent "Error processing your message" TypeError)].
Proof.
  apply (text_message_for_missing_session scalar_str "c1" "s1" hello_event "hello"
           (set_sessions ∅ failing_world)); reflexivity.
Defined.

Lemma text_message_with_non_string_text_witness :
  App.handle_text_message scalar_str "c1" {[ "text" := VInt 7 ]} failing_world
  = (inr tt,
     set_outbox [("c1", ErrorEvent "Error processing your message" AttributeError)]
       failing_world).
Proof.
  apply (text_message_with_non_string_text scalar_str "c1" "s1"
           {[ "text" := VInt 7 ]} (VInt 7) failing_world); [reflexivity..|discriminate].
Defined.

(** ** Successful turns and replies that are lost *)

Section Replies.

Variable py_str : value -> string.

(** The session after a turn whose reply is [reply], with patch [patch]. *)
Lemma with_ai_turn_history t w s r :
  conversation_history (with_ai_turn t w s r)
  = slice_last 30 (conversation_history s
                   ++ [Turn "user" t (clock w (ticks w));
                       Turn "ai" (resp_text r) (clock w (S (S (ticks w))))]).
Proof.
  unfold with_ai_turn, with_user_turn, appended, set_mode_specific_data.
  cbn [conversation_history]. rewrite slice_last_app_absorb, <- app_assoc. reflexivity.
Qed.

(** The call of [generate_response] of a text message when the client
    answers with content [c]. *)
Lemma llm_call_answered (w : world) (s : session) (t : string)
    (api : nat -> list message -> completion) (sp c : string) :
  client w = Some api ->
  GroqService._get_system_prompt py_str (mode s) (mode_specific_data s) = inr sp ->
  api (length (requests w))
      (request_for sp (conversation_history (with_user_turn t w s)) t)
    = ApiContent (Some c) ->
  llm_call py_str t w s w
  = (match GroqService._process_mode_logic (mode s) (mode_specific_data s) t
             (PyStr.strip c) with
     | inl e => inl (AIServiceError e)
     | inr patch => inr (Response (PyStr.strip c) patch)
     end,
     set_requests (requests w ++ [request_for sp
        (conversation_history (with_user_turn t w s)) t]) w).
Proof.
  intros Hapi Hsp Hans.
  unfold llm_call. rewrite generate_response_run, Hapi, Hsp. cbv zeta.
  rewrite Hans. reflexivity.
Qed.

(** X12. When the Groq client answers the request of a text message with a
    content [c] and the mode logic returns a patch, the turn succeeds: one
    request is made; the history gains the user turn and then the reply
    [c.strip()] (capped at 30); the patch is merged into the mode data and
    [last_activity] is the clock reading of the reply; the events are
    [ai-thinking] and an [ai-response] with that reply, its speech metadata
    (50 per character), the patch and the next clock reading times 1000. *)
Theorem successful_turn (cid sid : string) (data : gmap string value) (w : world)
    (s : session) (t : string) (api : nat -> list message -> completion)
    (sp c : string) (patch : gmap string value) :
  connection_sessions w !! cid = Some sid ->
  sessions w !! sid = Some s ->
  App.text_of data = inr t ->
  PyStr.is_empty t = false ->
  client w = Some api ->
  GroqService._get_system_prompt py_str (mode s) (mode_specific_data s) = inr sp ->
  api (length (requests w))
      (request_for sp (conversation_history (with_user_turn t w s)) t)
    = ApiContent (Some c) ->
  GroqService._process_mode_logic (mode s) (mode_specific_data s) t (PyStr.strip c)
    = inr patch ->
  exists w' s',
    App.handle_text_message py_str cid data w = (inr tt, w')
    /\ length (requests w') = S (length (requests w))
    /\ sessions w' = <[sid := s']> (sessions w)
    /\ conversation_history s'
       = slice_last 30 (conversation_history s
                        ++ [Turn "user" t (clock w (ticks w));
                            Turn "ai" (PyStr.strip c) (clock w (S (S (ticks w))))])
    /\ mode_specific_data s' = patch ∪ mode_specific_data s
    /\ mode s' = mode s
    /\ last_activity s' = clock w (S (S (S (ticks w))))
    /\ outbox w' = outbox w ++
         [(cid, AiThinking "generating");
          (cid, AiResponse (PyStr.strip c)
                  (Audio (PyStr.strip c) "text" (PyStr.len (PyStr.strip c) * 50))
                  patch (clock w (S (S (S (S (ticks w))))) * 1000))].
Proof.
  intros Hc Hs Ht Hne Hapi Hsp Hans Hlogic.
  pose proof (llm_call_answered w s t api sp c Hapi Hsp Hans) as Hcall.
  rewrite Hlogic in Hcall.
  assert ((llm_call py_str t w s w).1 = inr (Response (PyStr.strip c) patch)) as Hok
    by (by rewrite Hcall).
  eexists. exists (with_ai_turn t w s (Response (PyStr.strip c) patch)).
  split; [by apply handle_text_message_success|].
  rewrite Hcall. cbn [requests snd set_requests sessions outbox].
  split; [rewrite length_app; cbn; lia|]. split; [done|].
  split; [apply with_ai_turn_history|]. done.
Qed.

(** X13. A successful interview turn through [handle_text_message], on a
    session whose question index [q] and total [t] are integers: the stored
    question index afterwards is [min (q + 1) t] when the reply contains a
    question mark and [q] otherwise, the total is unchanged, and the
    [ai-response] event carries the same patch. *)
Theorem interview_turn_advances_index (cid sid : string) (data : gmap string value)
    (w : world) (s : session) (txt : string)
    (api : nat -> list message -> completion) (sp c : string) (q t : Z) :
  connection_sessions w !! cid = Some sid ->
  sessions w !! sid = Some s ->
  App.text_of data = inr txt ->
  PyStr.is_empty txt = false ->
  client w = Some api ->
  mode s = "interview" ->
  mode_specific_data s !! "question_index" = Some (VInt q) ->
  mode_specific_data s !! "total_questions" = Some (VInt t) ->
  GroqService._get_system_prompt py_str (mode s) (mode_specific_data s) = inr sp ->
  api (length (requests w))
      (request_for sp (conversation_history (with_user_turn txt w s)) txt)
    = ApiContent (Some c) ->
  let asked := PyStr.contains "?"%char (PyStr.strip c) in
  let patch : gmap string value :=
    if asked then {[ "question_index" := VInt (Z.min (q + 1) t) ]} else ∅ in
  exists w' s' ts,
    App.handle_text_message py_str cid data w = (inr tt, w')
    /\ sessions w' !! sid = Some s'
    /\ mode_specific_data s' !! "question_index"
       = Some (VInt (if asked then Z.min (q + 1) t else q))
    /\ mode_specific_data s' !! "total_questions" = Some (VInt t)
    /\ last (outbox w')
       = Some (cid, AiResponse (PyStr.strip c)
                      (GroqService.text_to_speech (PyStr.strip c)) patch ts).
Proof.
  intros Hc Hs Ht Hne Hapi Hmode Hq Htot Hsp Hans asked patch.
  assert (GroqService._process_mode_logic (mode s) (mode_specific_data s) txt
            (PyStr.strip c) = inr patch) as Hlogic.
  { rewrite Hmode. by apply process_mode_logic_interview. }
  pose proof (llm_call_answered w s txt api sp c Hapi Hsp Hans) as Hcall.
  rewrite Hlogic in Hcall.
  assert ((llm_call py_str txt w s w).1 = inr (Response (PyStr.strip c) patch)) as Hok
    by (by rewrite Hcall).
  eexists. exists (with_ai_turn txt w s (Response (PyStr.strip c) patch)). eexists.
  split; [by apply handle_text_message_success|].
  cbn [sessions outbox]. split; [apply lookup_insert_eq|].
  unfold with_ai_turn, appended, set_mode_specific_data, with_user_turn.
  cbn [mode_specific_data resp_mode_data]. subst patch. split; [|split].
  - destruct asked.
    + apply lookup_union_Some_l, lookup_singleton_eq.
    + by rewrite (left_id_L ∅ (∪)).
  - destruct asked.
    + rewrite lookup_union_r; [done|]. by apply lookup_singleton_ne.
    + by rewrite (left_id_L ∅ (∪)).
  - rewrite last_app. reflexivity.
Qed.

(** X14. When the Groq client answers but the mode logic raises on the
    reply, the reply is lost: the request has been made, the history holds
    the user turn and no reply, the mode data is as before, and the events
    are [ai-thinking] and one [error] carrying the wrapped exception.  In
    interview mode this happens for every reply with a question mark when
    [total_questions] is not a number. *)
Theorem reply_lost_when_mode_logic_raises (cid sid : string)
    (data : gmap string value) (w : world) (s : session) (t : string)
    (api : nat -> list message -> completion) (sp c : string) (e : exn) :
  connection_sessions w !! cid = Some sid ->
  sessions w !! sid = Some s ->
  App.text_of data = inr t ->
  PyStr.is_empty t = false ->
  client w = Some api ->
  GroqService._get_system_prompt py_str (mode s) (mode_specific_data s) = inr sp ->
  api (length (requests w))
      (request_for sp (conversation_history (with_user_turn t w s)) t)
    = ApiContent (Some c) ->
  GroqService._process_mode_logic (mode s) (mode_specific_data s) t (PyStr.strip c)
    = inl e ->
  (exists w',
     App.handle_text_message py_str cid data w = (inr tt, w')
     /\ length (requests w') = S (length (requests w))
     /\ sessions w' = <[sid := with_user_turn t w s]> (sessions w)
     /\ outbox w' = outbox w ++
          [(cid, AiThinking "generating");
           (cid, ErrorEvent "Error processing your message" (AIServiceError e))])
  /\ (forall (md : gmap string value) (x u a : string),
        md !! "total_questions" = Some (VStr x) ->
        (exists n, py_add1 (dict_get md "question_index" (VInt 0)) = inr n) ->
        PyStr.contains "?"%char a = true ->
        GroqService._process_mode_logic "interview" md u a = inl TypeError).
Proof.
  intros Hc Hs Ht Hne Hapi Hsp Hans Hlogic. split.
  - assert (llm_call py_str t w s w
            = (inl (AIServiceError e),
               set_requests (requests w ++ [request_for sp
                  (conversation_history (with_user_turn t w s)) t]) w)) as Hcall.
    { unfold llm_call. rewrite generate_response_run, Hapi, Hsp. cbv zeta.
      rewrite Hans. unfold outcome_of. by rewrite Hlogic. }
    assert ((llm_call py_str t w s w).1 = inl (AIServiceError e)) as Hfail
      by (by rewrite Hcall).
    eexists. split; [by apply handle_text_message_failure|].
    rewrite Hcall. cbn [requests snd set_requests sessions outbox].
    split; [rewrite length_app; cbn; lia|]. done.
  - intros md x u a Htot [n Hn] Hask.
    unfold GroqService._process_mode_logic. cbn [String.eqb Ascii.eqb Bool.eqb].
    rewrite Hask, Hn. unfold dict_get at 1. by rewrite Htot.
Qed.

End Replies.

Lemma successful_turn_witness :
  exists w' s',
    App.handle_text_message scalar_str "c1" hello_event answering_world = (inr tt, w')
    /\ length (requests w') = 1%nat
    /\ sessions w' = <[ "s1" := s' ]> (sessions answering_world)
    /\ conversation_history s'
       = [Turn "user" "hello" 1000; Turn "ai" "I am fine. And you?" 1002]
    /\ mode_specific_data s' = mode_specific_data demo_session
    /\ mode s' = "chat"
    /\ last_activity s' = 1003
    /\ outbox w' = [("c1", AiThinking "generating");
                    ("c1", AiResponse "I am fine. And you?"
                             (Audio "I am fine. And you?" "text" 950) ∅ 1004000)].
Proof.
  destruct (successful_turn scalar_str "c1" "s1" hello_event answering_world
              demo_session "hello" (always_answer " I am fine. And you? ")
              GroqService.chat_prompt " I am fine. And you? " ∅)
    as (w' & s' & Hrun & Hreq & Hss & Hh & Hmd & Hm & Hla & Hout);
    try (vm_compute; reflexivity).
  exists w', s'.
  split; [exact Hrun|]. split; [exact Hreq|]. split; [exact Hss|].
  split; [exact Hh|]. split; [rewrite Hmd; vm_compute; reflexivity|].
  split; [exact Hm|]. split; [exact Hla|exact Hout].
Defined.

Lemma interview_turn_advances_index_witness :
  exists w' s' ts,
    App.handle_text_message scalar_str "c1" hello_event (interview_world ∅) = (inr tt, w')
    /\ sessions w' !! "s1" = Some s'
    /\ mode_specific_data s' !! "question_index" = Some (VInt 1)
    /\ mode_specific_data s' !! "total_questions" = Some (VInt 5)
    /\ last (outbox w')
       = Some ("c1", AiResponse "Why this role?"
                       (GroqService.text_to_speech "Why this role?")
                       {[ "question_index" := VInt 1 ]} ts).
Proof.
  destruct (interview_turn_advances_index scalar_str "c1" "s1" hello_event
              (interview_world ∅)
              (Session "s1" "interview" []
                 (SessionManager._initialize_mode_data "interview" ∅) 1000 1000)
              "hello" (always_answer " Why this role? ")
              (GroqService.interview_prompt "Software Engineer" "Tech Company" "5" "1")
              " Why this role? " 0 5)
    as (w' & s' & ts & Hrun & Hs & Hq & Ht & Hlast); try (vm_compute; reflexivity).
  exists w', s', ts.
  split; [exact Hrun|]. split; [exact Hs|]. split; [exact Hq|].
  split; [exact Ht|exact Hlast].
Defined.

Lemma reply_lost_when_mode_logic_raises_witness :
  exists w',
    App.handle_text_message scalar_str "c1" hello_event
      (interview_world {[ "totalQuestions" := VStr "five" ]}) = (inr tt, w')
    /\ length (requests w') = 1%nat
    /\ (conversation_history <$> sessions w' !! "s1") = Some [Turn "user" "hello" 1000]
    /\ outbox w' = [("c1", AiThinking "generating");
                    ("c1", ErrorEvent "Error processing your message"
                             (AIServiceError TypeError))].
Proof.
  destruct (reply_lost_when_mode_logic_raises scalar_str "c1" "s1" hello_event
              (interview_world {[ "totalQuestions" := VStr "five" ]})
              (Session "s1" "interview" []
                 (SessionManager._initialize_mode_data "interview"
                    {[ "totalQuestions" := VStr "five" ]}) 1000 1000)
              "hello" (always_answer " Why this role? ")
              (GroqService.interview_prompt "Software Engineer" "Tech Company" "five" "1")
              " Why this role? " TypeError)
    as [(w' & Hrun & Hreq & Hss & Hout) _]; try (vm_compute; reflexivity).
  exists w'. split; [exact Hrun|]. split; [exact Hreq|]. split; [|exact Hout].
  rewrite Hss. vm_compute. reflexivity.
Defined.

(** ** Requests to the Groq client *)

(** X15. [generate_response] changes nothing but the request log, to which
    it appends at most one request.  Without a client it makes no request
    and raises the not-initialised exception; with a client it returns a
    response only after exactly one request, every exception it raises is
    an [AIServiceError], and it makes no request when the system prompt
    cannot be built. *)
Theorem generate_response_requests (py_str : value -> string) (user_message : string)
    (history : list turn) (m : string) (mode_data : gmap string value) (w : world) :
  exists r reqs,
    GroqService.generate_response py_str user_message history m mode_data w
      = (r, set_requests (requests w ++ reqs) w)
    /\ (length reqs <= 1)%nat
    /\ (client w = None ->
        reqs = []
        /\ r = inl (Exception "Groq service not initialized. Check your API key."))
    /\ (client w <> None ->
        (forall resp, r = inr resp -> length reqs = 1%nat)
        /\ (forall e, r = inl e -> exists cause, e = AIServiceError cause))
    /\ (forall e, GroqService._get_system_prompt py_str m mode_data = inl e -> reqs = []).
Proof.
  rewrite generate_response_run.
  assert (set_requests (requests w ++ []) w = w) as Hid.
  { rewrite app_nil_r. by destruct w. }
  destruct (client w) as [api|] eqn:Hapi.
  - destruct (GroqService._get_system_prompt py_str m mode_data) as [e|sp] eqn:Hsp.
    + exists (inl (AIServiceError e)), []. rewrite Hid.
      split; [done|]. split; [cbn; lia|]. split; [done|]. split; [|done].
      intros _. split; [done|]. intros e' [= <-]. by eexists.
    + eexists. eexists. split; [reflexivity|]. split; [cbn; lia|]. split; [done|].
      split; [|done]. intros _. split; [done|].
      intros e He. unfold outcome_of in He.
      destruct (api _ _) as [msg|[c|]]; [injection He as <-; by eexists| |
                                          injection He as <-; by eexists].
      destruct (GroqService._process_mode_logic _ _ _ _); [|done].
      injection He as <-. by eexists.
  - eexists. exists []. rewrite Hid. split; [done|]. split; [cbn; lia|].
    split; [done|]. split; [done|]. done.
Qed.

(** ** Greetings and transitions *)

Section Greetings.

Variable py_str : value -> string.

Lemma generate_greeting_run (m : string) (config : gmap string value) (w : world) :
  Greeting.generate_greeting py_str m config w =
    match client w with
    | None => (inr (Greeting.Utterance Greeting.hello m), w)
    | Some api =>
        match GroqService._get_system_prompt py_str m config with
        | inl e => (inr (Greeting.Utterance (Greeting.fallbacks_get py_str m config) m), w)
        | inr sp =>
            (inr (Greeting.Utterance
                    (match api (length (requests w)) (greeting_request py_str sp m config) with
                     | ApiRaises _ => Greeting.fallbacks_get py_str m config
                     | ApiContent c => PyStr.strip (Greeting.content_or_hello c)
                     end) m),
             set_requests (requests w ++ [greeting_request py_str sp m config]) w)
        end
    end.
Proof.
  unfold Greeting.generate_greeting, bind, gets, try_except, lift, ret.
  destruct (client w) as [api|]; [|done].
  destruct (GroqService._get_system_prompt py_str m config) as [e|sp]; [done|].
  unfold GroqService.create_completion, bind, gets, modify, raise, ret.
  cbn -[PyStr.strip Greeting.fallbacks_get Greeting.prompts_get Greeting.content_or_hello].
  fold (greeting_request py_str sp m config).
  by destruct (api _ _) as [msg|c].
Qed.

(** X16. [generate_greeting] never raises.  It returns an utterance for the
    mode it was given, appends at most one request to the log and changes
    nothing else.  Without a client the text is the generic hello and no
    request is made; when building the system prompt or the request raises,
    the text is the fallback of the mode, which is the chat fallback for a
    mode that is neither [interview] nor [debate]. *)
Theorem generate_greeting_never_raises (m : string) (config : gmap string value)
    (w : world) :
  exists g reqs,
    Greeting.generate_greeting py_str m config w
      = (inr g, set_requests (requests w ++ reqs) w)
    /\ Greeting.utt_mode g = m
    /\ (length reqs <= 1)%nat
    /\ (client w = None -> reqs = [] /\ Greeting.utt_text g = Greeting.hello)
    /\ (forall api sp msg,
          client w = Some api ->
          GroqService._get_system_prompt py_str m config = inr sp ->
          api (length (requests w)) (greeting_request py_str sp m config) = ApiRaises msg ->
          Greeting.utt_text g = Greeting.fallbacks_get py_str m config)
    /\ (forall e,
          client w <> None ->
          GroqService._get_system_prompt py_str m config = inl e ->
          reqs = [] /\ Greeting.utt_text g = Greeting.fallbacks_get py_str m config)
    /\ (m <> "interview" -> m <> "debate" ->
        Greeting.fallbacks_get py_str m config = "Hey there! How's it going?").
Proof.
  rewrite generate_greeting_run.
  assert (set_requests (requests w ++ []) w = w) as Hid.
  { rewrite app_nil_r. by destruct w. }
  assert (m <> "interview" -> m <> "debate" ->
          Greeting.fallbacks_get py_str m config = "Hey there! How's it going?") as Hfb.
  { intros Hi%String.eqb_neq Hd%String.eqb_neq. unfold Greeting.fallbacks_get.
    rewrite Hi, Hd. by destruct (String.eqb m "chat"). }
  destruct (client w) as [api|] eqn:Hapi.
  - destruct (GroqService._get_system_prompt py_str m config) as [e|sp] eqn:Hsp.
    + eexists. exists []. rewrite Hid. split; [done|]. split; [done|].
      split; [cbn; lia|]. split; [done|]. split; [done|]. split; [|done]. done.
    + eexists. eexists. split; [reflexivity|]. split; [done|].
      split; [cbn; lia|]. split; [done|]. split; [|split; [done|done]].
      intros api' sp' msg [= <-] [= <-] Hraise. cbn. by rewrite Hraise.
  - eexists. exists []. rewrite Hid. split; [done|]. split; [done|].
    split; [cbn; lia|]. split; [done|]. split; [done|]. split; [|done].
    intros e He. done.
Qed.

(** X17. What [generate_greeting] answers when the client returns a
    completion: the content with surrounding white space removed, or the
    generic hello when the content is missing or empty.  One request was
    made, holding the system prompt and the opening instruction of the
    mode. *)
Theorem generate_greeting_answer (m : string) (config : gmap string value)
    (w : world) (api : nat -> list message -> completion) (sp : string)
    (content : option string) :
  client w = Some api ->
  GroqService._get_system_prompt py_str m config = inr sp ->
  api (length (requests w)) (greeting_request py_str sp m config) = ApiContent content ->
  Greeting.generate_greeting py_str m config w
  = (inr (Greeting.Utterance
            (match content with
             | None | Some "" => Greeting.hello
             | Some c => PyStr.strip c
             end) m),
     set_requests (requests w ++ [greeting_request py_str sp m config]) w).
Proof.
  intros Hapi Hsp Hans. rewrite generate_greeting_run, Hapi, Hsp, Hans.
  do 3 f_equal. by destruct content as [[|c s]|].
Qed.

Lemma dict_get_insert_ne (config : gmap string value) (k k' : string) (v d : value) :
  k <> k' -> dict_get (<[k := v]> config) k' d = dict_get config k' d.
Proof. intros Hk. unfold dict_get. by rewrite lookup_insert_ne. Qed.

(** X18. [generate_greeting] never reads the option [totalQuestions]: with
    or without it in the config, the request and the greeting are the same.
    The number of questions announced in the system prompt of an interview
    greeting is [config['total_questions']], 5 when that key is missing,
    while the session was created from [totalQuestions]. *)
Theorem greeting_ignores_totalQuestions (m : string) (config : gmap string value)
    (v : value) (w : world) :
  Greeting.generate_greeting py_str m (<[ "totalQuestions" := v ]> config) w
  = Greeting.generate_greeting py_str m config w
  /\ SessionManager._initialize_mode_data "interview" (<[ "totalQuestions" := v ]> config)
       !! "total_questions" = Some v
  /\ (config !! "total_questions" = None ->
      config !! "question_index" = None ->
      GroqService._get_system_prompt py_str "interview" (<[ "totalQuestions" := v ]> config)
      = inr (GroqService.interview_prompt
               (py_str (dict_get config "role" (VStr "Software Engineer")))
               (py_str (dict_get config "company" (VStr "a leading tech company")))
               (py_str (VInt 5)) (py_str (VInt 1)))).
Proof.
  assert (GroqService._get_system_prompt py_str m (<[ "totalQuestions" := v ]> config)
          = GroqService._get_system_prompt py_str m config) as Hsp.
  { unfold GroqService._get_system_prompt. by rewrite !dict_get_insert_ne. }
  assert (forall sp, greeting_request py_str sp m (<[ "totalQuestions" := v ]> config)
                     = greeting_request py_str sp m config) as Hreq.
  { intros sp. unfold greeting_request, Greeting.prompts_get.
    by rewrite !dict_get_insert_ne. }
  assert (Greeting.fallbacks_get py_str m (<[ "totalQuestions" := v ]> config)
          = Greeting.fallbacks_get py_str m config) as Hfb.
  { unfold Greeting.fallbacks_get. by rewrite !dict_get_insert_ne. }
  split; [|split].
  - rewrite !generate_greeting_run, Hsp, Hfb.
    destruct (client w) as [api|]; [|done].
    destruct (GroqService._get_system_prompt py_str m config) as [e|sp]; [done|].
    by rewrite Hreq.
  - unfold SessionManager._initialize_mode_data, dict_get. cbn [String.eqb Ascii.eqb Bool.eqb].
    rewrite lookup_insert_ne by done. rewrite lookup_insert_ne by done.
    rewrite lookup_insert_ne by done. rewrite lookup_insert_eq.
    by rewrite lookup_insert_eq.
  - intros Ht Hq.
    unfold GroqService._get_system_prompt. cbn [String.eqb Ascii.eqb Bool.eqb].
    rewrite !dict_get_insert_ne by done.
    assert (dict_get config "question_index" (VInt 0) = VInt 0) as ->
      by (unfold dict_get; by rewrite Hq).
    assert (dict_get config "total_questions" (VInt 5) = VInt 5) as ->
      by (unfold dict_get; by rewrite Ht).
    reflexivity.
Qed.

End Greetings.

Lemma generate_greeting_answer_witness :
  Greeting.generate_greeting scalar_str "interview"
    {[ "role" := VStr "Backend Engineer" ]} (interview_world ∅)
  = (inr (Greeting.Utterance "Why this role?" "interview"),
     set_requests
       [greeting_request scalar_str
          (GroqService.interview_prompt "Backend Engineer" "a leading tech company"
             "5" "1")
          "interview" {[ "role" := VStr "Backend Engineer" ]}]
       (interview_world ∅)).
Proof.
  apply (generate_greeting_answer scalar_str "interview"
           {[ "role" := VStr "Backend Engineer" ]} (interview_world ∅)
           (always_answer " Why this role? ")
           (GroqService.interview_prompt "Backend Engineer" "a leading tech company"
              "5" "1")
           (Some " Why this role? ")); reflexivity.
Defined.

(** ** Session initialisation and mode changes over the socket *)

Section SocketHandlers.

Variable py_str : value -> string.

Lemma generate_greeting_frame (m : string) (config : gmap string value) (w w' : world) :
  client w' = client w ->
  requests w' = requests w ->
  Greeting.generate_greeting py_str m config w'
  = (inr (greeting_of py_str m config w),
     set_requests (requests (Greeting.generate_greeting py_str m config w).2) w').
Proof.
  intros Hc Hr. unfold greeting_of. rewrite !generate_greeting_run, Hc, Hr.
  assert (set_requests (requests w) w' = w') as Hid.
  { rewrite <- Hr. by destruct w'. }
  destruct (client w) as [api|]; cbn; [|by rewrite Hid].
  destruct (GroqService._get_system_prompt py_str m config) as [e|sp]; cbn;
    [by rewrite Hid|done].
Qed.

Lemma known_session_true (sid : string) (s : session) (w : world) :
  PyStr.is_empty sid = false ->
  sessions w !! sid = Some s ->
  Handlers.known_session (Some sid) w = (inr true, w).
Proof.
  intros Hne Hs. unfold Handlers.known_session. rewrite Hne.
  unfold bind, SessionManager.get_session, gets, ret. by rewrite Hs.
Qed.

Lemma known_session_false (osid : option string) (w : world) :
  (forall sid, osid = Some sid -> PyStr.is_empty sid = false -> sessions w !! sid = None) ->
  Handlers.known_session osid w = (inr false, w).
Proof.
  intros Hnone. destruct osid as [sid|]; [|done]. cbn.
  destruct (PyStr.is_empty sid) eqn:Hne; [done|].
  unfold bind, SessionManager.get_session, gets, ret. by rewrite (Hnone sid).
Qed.

Lemma handle_init_session_new (cid : string) (data : Handlers.init_data) (w : world) :
  (forall sid, Handlers.init_sessionId data = Some sid ->
     PyStr.is_empty sid = false -> sessions w !! sid = None) ->
  let m := default "chat" (Handlers.init_mode data) in
  let config := default ∅ (Handlers.init_config data) in
  let sid := uuid4 w (uuids w) in
  let txt := Greeting.utt_text (greeting_of py_str m config w) in
  Handlers.handle_init_session py_str cid data w
  = ((inr tt,
      World (clock w) (S (S (S (S (S (ticks w)))))) (uuid4 w) (S (uuids w)) (client w)
        (requests (Greeting.generate_greeting py_str m config w).2)
        (<[sid := Session sid m [Turn "ai" txt (clock w (S (S (ticks w))))]
                    (SessionManager._initialize_mode_data m config)
                    (clock w (ticks w)) (clock w (S (S (S (ticks w)))))]> (sessions w))
        (<[cid := sid]> (connection_sessions w))
        (outbox w)),
     [(cid, SessionReady sid m txt);
      (cid, AiResponseFrame txt (GroqService.text_to_speech txt)
              (clock w (S (S (S (S (ticks w))))) * 1000))]).
Proof.
  intros Hnew m config sid txt.
  unfold Handlers.handle_init_session, htry.
  fold m config.
  unfold hbind at 1. unfold hlift at 1. rewrite (known_session_false _ _ Hnew).
  unfold hbind at 1. unfold hlift at 1. rewrite create_session_run.
  unfold hbind at 1. unfold hlift at 1, modify at 1.
  unfold hbind at 1. unfold hlift at 1.
  rewrite (generate_greeting_frame m config w) by reflexivity.
  fold txt.
  unfold hbind at 1. unfold hlift at 1.
  erewrite add_message_present; [|cbn; apply lookup_insert_eq].
  unfold hbind at 1. unfold hsend at 1.
  unfold hbind at 1. unfold hlift at 1, now at 1.
  unfold hsend.
  cbn [set_outbox set_requests set_sessions set_ticks set_uuids set_connection_sessions
       clock ticks uuid4 uuids client requests sessions connection_sessions outbox
       app fst snd default].
  rewrite insert_insert_eq. reflexivity.
Qed.

Lemma handle_init_session_known (cid sid : string) (data : Handlers.init_data)
    (w : world) (s : session) :
  Handlers.init_sessionId data = Some sid ->
  PyStr.is_empty sid = false ->
  sessions w !! sid = Some s ->
  let m := default "chat" (Handlers.init_mode data) in
  let config := default ∅ (Handlers.init_config data) in
  let txt := Greeting.utt_text (greeting_of py_str m config w) in
  Handlers.handle_init_session py_str cid data w
  = ((inr tt,
      World (clock w) (S (S (S (ticks w)))) (uuid4 w) (uuids w) (client w)
        (requests (Greeting.generate_greeting py_str m config w).2)
        (<[sid := appended "ai" txt (clock w (ticks w)) (clock w (S (ticks w))) s]>
           (sessions w))
        (<[cid := sid]> (connection_sessions w))
        (outbox w)),
     [(cid, SessionReady sid m txt);
      (cid, AiResponseFrame txt (GroqService.text_to_speech txt)
              (clock w (S (S (ticks w))) * 1000))]).
Proof.
  intros Hid Hne Hs m config txt.
  unfold Handlers.handle_init_session, htry.
  fold m config. rewrite Hid.
  unfold hbind at 1. unfold hlift at 1. rewrite (known_session_true _ _ _ Hne Hs).
  unfold hbind at 1. unfold hret at 1.
  unfold hbind at 1. unfold hlift at 1, modify at 1.
  unfold hbind at 1. unfold hlift at 1.
  rewrite (generate_greeting_frame m config w) by reflexivity.
  fold txt.
  unfold hbind at 1. unfold hlift at 1.
  erewrite add_message_present; [|cbn; exact Hs].
  unfold hbind at 1. unfold hsend at 1.
  unfold hbind at 1. unfold hlift at 1, now at 1.
  unfold hsend.
  cbn [set_outbox set_requests set_sessions set_ticks set_uuids set_connection_sessions
       clock ticks uuid4 uuids client requests sessions connection_sessions outbox
       app fst snd default].
  reflexivity.
Qed.

(** X19. [init-session] without a usable identifier (none, an empty one, or
    one that is not in the store) never fails: it creates a session under a
    newly generated identifier, not under the requested one, with the
    requested mode (default [chat]) and the initial data of that mode, binds
    the connection to it, stores the greeting as its only turn, and sends
    [session-ready] and then [ai-response] with the same greeting text.
    Every other session is as before. *)
Theorem init_session_creates (cid : string) (data : Handlers.init_data) (w : world) :
  (forall sid, Handlers.init_sessionId data = Some sid ->
     PyStr.is_empty sid = false -> sessions w !! sid = None) ->
  let m := default "chat" (Handlers.init_mode data) in
  let config := default ∅ (Handlers.init_config data) in
  let sid := uuid4 w (uuids w) in
  let txt := Greeting.utt_text (greeting_of py_str m config w) in
  exists w' s' ts,
    Handlers.handle_init_session py_str cid data w
    = ((inr tt, w'),
       [(cid, SessionReady sid m txt);
        (cid, AiResponseFrame txt (GroqService.text_to_speech txt) ts)])
    /\ connection_sessions w' !! cid = Some sid
    /\ sessions w' !! sid = Some s'
    /\ mode s' = m
    /\ mode_specific_data s' = SessionManager._initialize_mode_data m config
    /\ map (fun u => (role u, text u)) (conversation_history s') = [("ai", txt)]
    /\ (forall k, k <> sid -> sessions w' !! k = sessions w !! k)
    /\ outbox w' = outbox w.
Proof.
  intros Hnew m config sid txt.
  eexists. eexists. eexists.
  split; [by apply handle_init_session_new|].
  cbn [connection_sessions sessions outbox].
  split; [apply lookup_insert_eq|]. split; [apply lookup_insert_eq|].
  do 3 (split; [done|]). split; [|done].
  intros k Hk. by rewrite lookup_insert_ne.
Qed.

(** X20. [init-session] with the identifier of a stored session creates
    nothing: the store keeps its keys, no identifier is generated, and the
    session keeps its mode and its mode data, whatever mode the event asks
    for.  The connection is bound to the session, the greeting of the
    requested mode is appended to its history (capped at 30), and
    [session-ready] announces the requested mode. *)
Theorem init_session_reuses (cid sid : string) (data : Handlers.init_data)
    (w : world) (s : session) :
  Handlers.init_sessionId data = Some sid ->
  PyStr.is_empty sid = false ->
  sessions w !! sid = Some s ->
  let m := default "chat" (Handlers.init_mode data) in
  let config := default ∅ (Handlers.init_config data) in
  let txt := Greeting.utt_text (greeting_of py_str m config w) in
  exists w' s' ts,
    Handlers.handle_init_session py_str cid data w
    = ((inr tt, w'),
       [(cid, SessionReady sid m txt);
        (cid, AiResponseFrame txt (GroqService.text_to_speech txt) ts)])
    /\ connection_sessions w' !! cid = Some sid
    /\ dom (sessions w') = dom (sessions w)
    /\ uuids w' = uuids w
    /\ sessions w' !! sid = Some s'
    /\ mode s' = mode s
    /\ mode_specific_data s' = mode_specific_data s
    /\ conversation_history s'
       = slice_last 30 (conversation_history s ++ [Turn "ai" txt (clock w (ticks w))]).
Proof.
  intros Hid Hne Hs m config txt.
  eexists. eexists. eexists.
  split; [by apply (handle_init_session_known cid sid data w s)|].
  cbn [connection_sessions sessions uuids].
  split; [apply lookup_insert_eq|].
  split; [apply dom_insert_lookup_L; by rewrite Hs|].
  split; [done|]. split; [apply lookup_insert_eq|]. done.
Qed.

End SocketHandlers.

Lemma init_session_creates_witness :
  exists w' s' ts,
    Handlers.handle_init_session scalar_str "c2"
      (Handlers.InitData (Some "unknown-id") (Some "interview")
         (Some {[ "role" := VStr "Backend Engineer" ]})) demo_world
    = ((inr tt, w'),
       [("c2", SessionReady "session-A" "interview" "Hello! How can I help you today?");
        ("c2", AiResponseFrame "Hello! How can I help you today?"
                 (GroqService.text_to_speech "Hello! How can I help you today?") ts)])
    /\ connection_sessions w' !! "c2" = Some "session-A"
    /\ sessions w' !! "session-A" = Some s'
    /\ mode s' = "interview"
    /\ sessions w' !! "unknown-id" = None.
Proof.
  destruct (init_session_creates scalar_str "c2"
              (Handlers.InitData (Some "unknown-id") (Some "interview")
                 (Some {[ "role" := VStr "Backend Engineer" ]})) demo_world)
    as (w' & s' & ts & Hrun & Hc & Hs & Hm & _ & _ & Hother & _).
  { intros sid [= <-] _. reflexivity. }
  exists w', s', ts. split; [exact Hrun|]. split; [exact Hc|]. split; [exact Hs|].
  split; [exact Hm|]. rewrite Hother by discriminate. reflexivity.
Defined.

Lemma init_session_reuses_witness :
  exists w' s' ts,
    Handlers.handle_init_session scalar_str "c2"
      (Handlers.InitData (Some "s1") (Some "debate") None) demo_world
    = ((inr tt, w'),
       [("c2", SessionReady "s1" "debate" "Hello! How can I help you today?");
        ("c2", AiResponseFrame "Hello! How can I help you today?"
                 (GroqService.text_to_speech "Hello! How can I help you today?") ts)])
    /\ connection_sessions w' !! "c2" = Some "s1"
    /\ sessions w' !! "s1" = Some s'
    /\ mode s' = "chat"
    /\ mode_specific_data s' = mode_specific_data demo_session.
Proof.
  destruct (init_session_reuses scalar_str "c2" "s1"
              (Handlers.InitData (Some "s1") (Some "debate") None) demo_world
              demo_session eq_refl eq_refl eq_refl)
    as (w' & s' & ts & Hrun & Hc & _ & _ & Hs & Hm & Hd & _).
  exists w', s', ts. split; [exact Hrun|]. split; [exact Hc|]. split; [exact Hs|].
  split; [exact Hm|exact Hd].
Defined.

Section ModeChanges.

Variable py_str : value -> string.

Lemma handle_change_mode_unbound (cid : string) (data : Handlers.mode_request)
    (w : world) :
  connection_sessions w !! cid = None ->
  Handlers.handle_change_mode py_str cid data w
  = ((inr tt, w), [(cid, ErrorMessage "No active session")]).
Proof.
  intros Hc. unfold Handlers.handle_change_mode, htry, hbind, hlift, gets, hsend.
  by rewrite Hc.
Qed.

Lemma handle_change_mode_present (cid sid : string) (data : Handlers.mode_request)
    (w : world) (s : session) :
  connection_sessions w !! cid = Some sid ->
  sessions w !! sid = Some s ->
  let m := Handlers.chg_mode data in
  let config := default ∅ (Handlers.chg_config data) in
  let txt := Greeting.utt_text (Greeting.generate_mode_transition py_str m config) in
  Handlers.handle_change_mode py_str cid data w
  = ((inr tt,
      World (clock w) (S (S (S (S (ticks w))))) (uuid4 w) (uuids w) (client w)
        (requests w)
        (<[sid := appended "ai" txt (clock w (S (ticks w))) (clock w (S (S (ticks w))))
                    (Session (session_id s) m (conversation_history s)
                       (SessionManager._initialize_mode_data m config)
                       (created_at s) (clock w (ticks w)))]> (sessions w))
        (connection_sessions w) (outbox w)),
     [(cid, ModeChanged m txt);
      (cid, AiResponseFrame txt (GroqService.text_to_speech txt)
              (clock w (S (S (S (ticks w)))) * 1000))]).
Proof.
  intros Hc Hs m config txt.
  unfold Handlers.handle_change_mode, htry.
  unfold hbind at 1. unfold hlift at 1, gets at 1. rewrite Hc.
  fold m config. fold txt.
  unfold hbind at 1. unfold hlift at 1. rewrite (change_mode_present _ _ _ _ _ Hs).
  unfold hbind at 1. unfold hlift at 1.
  erewrite add_message_present; [|cbn; apply lookup_insert_eq].
  unfold hbind at 1. unfold hsend at 1.
  unfold hbind at 1. unfold hlift at 1, now at 1.
  unfold hsend.
  cbn [set_outbox set_requests set_sessions set_ticks set_uuids set_connection_sessions
       clock ticks uuid4 uuids client requests sessions connection_sessions outbox
       app fst snd default].
  rewrite insert_insert_eq. reflexivity.
Qed.

Lemma handle_change_mode_missing (cid sid : string) (data : Handlers.mode_request)
    (w : world) :
  connection_sessions w !! cid = Some sid ->
  sessions w !! sid = None ->
  let m := Handlers.chg_mode data in
  let config := default ∅ (Handlers.chg_config data) in
  let txt := Greeting.utt_text (Greeting.generate_mode_transition py_str m config) in
  Handlers.handle_change_mode py_str cid data w
  = ((inr tt, set_ticks (S (ticks w)) w),
     [(cid, ModeChanged m txt);
      (cid, AiResponseFrame txt (GroqService.text_to_speech txt)
              (clock w (ticks w) * 1000))]).
Proof.
  intros Hc Hs m config txt.
  unfold Handlers.handle_change_mode, htry.
  unfold hbind at 1. unfold hlift at 1, gets at 1. rewrite Hc.
  fold m config. fold txt.
  unfold hbind at 1. unfold hlift at 1. rewrite (change_mode_absent _ _ _ _ Hs).
  unfold hbind at 1. unfold hlift at 1. rewrite (add_message_absent _ _ _ _ Hs).
  unfold hbind at 1. unfold hsend at 1.
  unfold hbind at 1. unfold hlift at 1, now at 1.
  unfold hsend. reflexivity.
Qed.

(** X21. [change-mode] on a connection that is bound to no session sends
    one [error] event with the message [No active session] and changes
    nothing: no session is touched and the clock is not read. *)
Theorem change_mode_without_session (cid : string) (data : Handlers.mode_request)
    (w : world) :
  connection_sessions w !! cid = None ->
  Handlers.handle_change_mode py_str cid data w
  = ((inr tt, w), [(cid, ErrorMessage "No active session")]).
Proof. apply handle_change_mode_unbound. Qed.

(** X22. [change-mode] on a connection bound to a stored session switches
    the session to the new mode with the initial data of that mode (the old
    data is dropped), appends the transition text as an AI turn to the
    history, which is otherwise kept, makes no request to the Groq client,
    and sends [mode-changed] and then [ai-response] with the same text.  For
    a mode outside [chat], [interview] and [debate] the text is
    [Mode changed successfully!]. *)
Theorem change_mode_switches (cid sid : string) (data : Handlers.mode_request)
    (w : world) (s : session) :
  connection_sessions w !! cid = Some sid ->
  sessions w !! sid = Some s ->
  let m := Handlers.chg_mode data in
  let config := default ∅ (Handlers.chg_config data) in
  let txt := Greeting.utt_text (Greeting.generate_mode_transition py_str m config) in
  exists w' s' ts,
    Handlers.handle_change_mode py_str cid data w
    = ((inr tt, w'),
       [(cid, ModeChanged m txt);
        (cid, AiResponseFrame txt (GroqService.text_to_speech txt) ts)])
    /\ sessions w' !! sid = Some s'
    /\ mode s' = m
    /\ mode_specific_data s' = SessionManager._initialize_mode_data m config
    /\ conversation_history s'
       = slice_last 30 (conversation_history s
                        ++ [Turn "ai" txt (clock w (S (ticks w)))])
    /\ requests w' = requests w
    /\ (forall k, k <> sid -> sessions w' !! k = sessions w !! k)
    /\ (m <> "chat" -> m <> "interview" -> m <> "debate" ->
        txt = "Mode changed successfully!").
Proof.
  intros Hc Hs m config txt.
  eexists. eexists. eexists.
  split; [by apply (handle_change_mode_present cid sid data w s)|].
  cbn [sessions requests].
  split; [apply lookup_insert_eq|]. do 4 (split; [done|]). split.
  - intros k Hk. by rewrite lookup_insert_ne.
  - intros Hchat%String.eqb_neq Hi%String.eqb_neq Hd%String.eqb_neq.
    subst txt. unfold Greeting.generate_mode_transition. cbn [Greeting.utt_text].
    by rewrite Hchat, Hi, Hd.
Qed.

(** X23. [change-mode] on a connection bound to an identifier that is no
    longer in the store is not reported as an error: the store is left as it
    is, and [mode-changed] and [ai-response] are sent all the same. *)
Theorem change_mode_for_missing_session (cid sid : string)
    (data : Handlers.mode_request) (w : world) :
  connection_sessions w !! cid = Some sid ->
  sessions w !! sid = None ->
  exists w' txt ts,
    Handlers.handle_change_mode py_str cid data w
    = ((inr tt, w'),
       [(cid, ModeChanged (Handlers.chg_mode data) txt);
        (cid, AiResponseFrame txt (GroqService.text_to_speech txt) ts)])
    /\ sessions w' = sessions w
    /\ connection_sessions w' = connection_sessions w
    /\ requests w' = requests w.
Proof.
  intros Hc Hs. eexists. eexists. eexists.
  split; [by apply (handle_change_mode_missing cid sid data w)|]. done.
Qed.

End ModeChanges.

Lemma change_mode_without_session_witness :
  Handlers.handle_change_mode scalar_str "c9" (Handlers.ModeRequest "debate" None)
    demo_world
  = ((inr tt, demo_world), [("c9", ErrorMessage "No active session")]).
Proof.
  apply (change_mode_without_session scalar_str "c9"
           (Handlers.ModeRequest "debate" None) demo_world).
  reflexivity.
Defined.

Lemma change_mode_switches_witness :
  exists w' s' ts,
    Handlers.handle_change_mode scalar_str "c1"
      (Handlers.ModeRequest "debate" (Some {[ "topic" := VStr "X" ]})) demo_world
    = ((inr tt, w'),
       [("c1", ModeChanged "debate"
                 ("Excellent! Let's debate " +:+ PyStr.dq +:+ "X" +:+ PyStr.dq
                  +:+ ". I'll take the PRO position. Let's hear your opening statement."));
        ("c1", AiResponseFrame
                 ("Excellent! Let's debate " +:+ PyStr.dq +:+ "X" +:+ PyStr.dq
                  +:+ ". I'll take the PRO position. Let's hear your opening statement.")
                 (GroqService.text_to_speech
                    ("Excellent! Let's debate " +:+ PyStr.dq +:+ "X" +:+ PyStr.dq
                     +:+ ". I'll take the PRO position. Let's hear your opening statement."))
                 ts)])
    /\ sessions w' !! "s1" = Some s'
    /\ mode s' = "debate"
    /\ mode_specific_data s' !! "stance" = Some (VStr "pro")
    /\ mode_specific_data s' !! "emotional_tone" = None.
Proof.
  destruct (change_mode_switches scalar_str "c1" "s1"
              (Handlers.ModeRequest "debate" (Some {[ "topic" := VStr "X" ]}))
              demo_world demo_session eq_refl eq_refl)
    as (w' & s' & ts & Hrun & Hs & Hm & Hd & _).
  exists w', s', ts. split; [exact Hrun|]. split; [exact Hs|]. split; [exact Hm|].
  rewrite Hd. split; vm_compute; reflexivity.
Defined.

Lemma change_mode_for_missing_session_witness :
  exists w' txt ts,
    Handlers.handle_change_mode scalar_str "c1" (Handlers.ModeRequest "chat" None)
      (set_sessions ∅ demo_world)
    = ((inr tt, w'),
       [("c1", ModeChanged "chat" txt);
        ("c1", AiResponseFrame txt (GroqService.text_to_speech txt) ts)])
    /\ sessions w' = ∅
    /\ connection_sessions w' = {[ "c1" := "s1" ]}
    /\ requests w' = [].
Proof.
  apply (change_mode_for_missing_session scalar_str "c1" "s1"
           (Handlers.ModeRequest "chat" None) (set_sessions ∅ demo_world));
    reflexivity.
Defined.

(** ** The REST endpoints *)

(** X24. The mode endpoint and the history endpoint answer 404
    [Session not found] for an identifier that is not in the store and
    change nothing.  For a stored session the mode endpoint switches the
    mode and re-initialises the mode data without appending any turn: the
    history endpoint then returns the new mode and the history as it was. *)
Theorem rest_mode_then_history (sid : string) (data : Handlers.mode_request)
    (w : world) :
  (sessions w !! sid = None ->
     Handlers.change_session_mode sid data w
       = (inl (Handlers.HTTPException 404 "Session not found"), w)
     /\ Handlers.get_session_history sid w
       = (inl (Handlers.HTTPException 404 "Session not found"), w))
  /\ (forall s, sessions w !! sid = Some s ->
        exists w',
          Handlers.change_session_mode sid data w
            = (inr (Handlers.ModeReply true sid (Handlers.chg_mode data)
                      ("Mode changed to " +:+ Handlers.chg_mode data)), w')
          /\ Handlers.get_session_history sid w'
             = (inr (Handlers.HistoryReply true (conversation_history s)
                       (Handlers.chg_mode data)), w')
          /\ (mode_specific_data <$> sessions w' !! sid)
             = Some (SessionManager._initialize_mode_data (Handlers.chg_mode data)
                       (default ∅ (Handlers.chg_config data)))
          /\ Handlers.get_session_history sid w
             = (inr (Handlers.HistoryReply true (conversation_history s) (mode s)), w)).
Proof.
  split.
  - intros Hs. unfold Handlers.change_session_mode, Handlers.get_session_history.
    by rewrite Hs.
  - intros s Hs. unfold Handlers.change_session_mode. rewrite Hs.
    rewrite (change_mode_present _ _ _ _ _ Hs). cbn [snd].
    eexists. split; [reflexivity|].
    unfold Handlers.get_session_history. rewrite Hs. cbn [sessions set_sessions].
    rewrite lookup_insert_eq. done.
Qed.

(** ** The connection registry *)

Section Registry.

Context {json : Type}.

Implicit Types m : ConnectionManager.manager json.

(** X25. [disconnect] releases both mappings of the connection and nothing
    else: afterwards the identifier has no socket and no session, every
    other connection keeps its socket and its session, and nothing has been
    sent.  A second [disconnect] changes nothing, and a [send_json] to the
    closed connection is dropped. *)
Theorem disconnect_releases (cid : string) m :
  let m' := ConnectionManager.disconnect cid m in
  ConnectionManager.active_connections m' !! cid = None
  /\ ConnectionManager.connection_sessions m' !! cid = None
  /\ (forall k, k <> cid ->
        ConnectionManager.active_connections m' !! k
          = ConnectionManager.active_connections m !! k
        /\ ConnectionManager.connection_sessions m' !! k
          = ConnectionManager.connection_sessions m !! k)
  /\ ConnectionManager.delivered m' = ConnectionManager.delivered m
  /\ ConnectionManager.disconnect cid m' = m'
  /\ (forall data, ConnectionManager.send_json cid data m' = m').
Proof.
  intros m'.
  assert (ConnectionManager.active_connections m'
          = delete cid (ConnectionManager.active_connections m)) as Ha.
  { subst m'. unfold ConnectionManager.disconnect. cbn. case_decide as H; [done|].
    rewrite delete_id; [done|]. by apply eq_None_not_Some. }
  assert (ConnectionManager.connection_sessions m'
          = delete cid (ConnectionManager.connection_sessions m)) as Hb.
  { subst m'. unfold ConnectionManager.disconnect. cbn. case_decide as H; [done|].
    rewrite delete_id; [done|]. by apply eq_None_not_Some. }
  assert (ConnectionManager.active_connections m' !! cid = None) as Hna
    by (rewrite Ha; apply lookup_delete_eq).
  assert (ConnectionManager.connection_sessions m' !! cid = None) as Hnb
    by (rewrite Hb; apply lookup_delete_eq).
  split; [done|]. split; [done|]. split.
  { intros k Hk. rewrite Ha, Hb. by rewrite !lookup_delete_ne. }
  split; [done|]. split.
  - unfold ConnectionManager.disconnect at 1. rewrite Hna, Hnb.
    rewrite !decide_False by (by intros [? ?]). by destruct m'.
  - intros data. unfold ConnectionManager.send_json. by rewrite Hna.
Qed.

Lemma act_registry_ok (a : ConnectionManager.action json) m :
  registry_ok m -> registry_ok (ConnectionManager.act a m).
Proof.
  intros [Hd Ha]. destruct a as [ws cid|cid|cid data|cid sid]; cbn.
  - split; cbn.
    + intros ws' data Hin. apply elem_of_app. left. by eapply Hd.
    + intros cid' ws'. destruct (decide (cid = cid')) as [->|Hne].
      * rewrite lookup_insert_eq. intros [= <-]. apply elem_of_app. right.
        apply elem_of_cons. by left.
      * rewrite lookup_insert_ne by done. intros Hl. apply elem_of_app. left.
        by eapply Ha.
  - split; cbn; [done|].
    intros cid' ws'. case_decide; [|by apply Ha].
    intros [_ Hl]%lookup_delete_Some. by eapply Ha.
  - unfold ConnectionManager.send_json.
    destruct (ConnectionManager.active_connections m !! cid) as [ws|] eqn:Hl; [|done].
    split; cbn; [|done].
    intros ws' data' [Hin|Hin]%elem_of_app; [by eapply Hd|].
    apply elem_of_cons in Hin as [[= -> ->]|Hin%elem_of_nil]; [|done]. by eapply Ha.
  - done.
Qed.

(** X26. Whatever sequence of [connect], [disconnect], [send_json] and
    session bindings a fresh registry goes through, every payload that was
    delivered went to a socket that had been accepted by [connect], and
    every socket still registered is an accepted one. *)
Theorem delivered_only_to_accepted (l : list (ConnectionManager.action json)) :
  registry_ok (ConnectionManager.acts l ConnectionManager.init).
Proof.
  assert (forall m, registry_ok m -> registry_ok (ConnectionManager.acts l m)) as Hgen.
  { induction l as [|a l IH]; intros m Hm; [done|].
    cbn. apply IH. by apply act_registry_ok. }
  apply Hgen. split; cbn.
  - by intros ws data Hin%elem_of_nil.
  - by intros cid ws Hl.
Qed.

(** After [connect], a payload sent to the connection is delivered to
    the socket given to that [connect], and to no other, also when the
    identifier was already registered with another socket; the session
    binding of the connection is not touched by [connect]. *)
Lemma send_json_reaches_latest_socket (ws : nat) (cid : string) (data : json) m :
  let m' := ConnectionManager.send_json cid data (ConnectionManager.connect ws cid m) in
  ConnectionManager.delivered m' = ConnectionManager.delivered m ++ [(ws, data)]
  /\ ConnectionManager.active_connections m' !! cid = Some ws
  /\ ConnectionManager.connection_sessions m' = ConnectionManager.connection_sessions m.
Proof.
  intros m'. subst m'. unfold ConnectionManager.send_json, ConnectionManager.connect.
  cbn. rewrite lookup_insert_eq. cbn. by rewrite lookup_insert_eq.
Qed.

End Registry.

(** ** What keeps a session alive *)

(** X27. Whether the reaper removes a session right after an operation on
    it depends on the operation.  After [add_message] or [change_mode] the
    idle time counts from the clock reading of that operation; after
    [update_mode_data] or [get_session] it still counts from the old
    [last_activity], so a session that is only read or patched is reaped as
    if nothing had happened. *)
Theorem reaping_after_an_operation (sid : string) (w : world) (s : session)
    (r t new_mode : string) (config : option (gmap string value))
    (patch : gmap string value) (max_age : Z) :
  sessions w !! sid = Some s ->
  let reaped (w1 : world) :=
    sessions (SessionManager.cleanup_old_sessions max_age w1).2 !! sid = None in
  (reaped (SessionManager.add_message sid r t w).2
     <-> clock w (S (S (ticks w))) - clock w (S (ticks w)) > max_age)
  /\ (reaped (SessionManager.change_mode sid new_mode config w).2
     <-> clock w (S (ticks w)) - clock w (ticks w) > max_age)
  /\ (reaped (SessionManager.update_mode_data sid patch w).2
     <-> clock w (ticks w) - last_activity s > max_age)
  /\ (reaped (SessionManager.get_session sid w).2
     <-> clock w (ticks w) - last_activity s > max_age).
Proof.
  intros Hs reaped. subst reaped. cbv beta.
  rewrite (add_message_present _ _ _ _ _ Hs), (change_mode_present _ _ _ _ _ Hs),
    (update_mode_data_present _ _ _ _ Hs).
  unfold SessionManager.get_session, gets. cbn [snd].
  repeat split; intros H.
  all: match type of H with
       | sessions _ !! _ = None =>
           match type of H with
           | context [SessionManager.cleanup_old_sessions ?a ?w1] =>
               destruct (cleanup_old_sessions_lookup a w1 sid) as [_ Hl];
               rewrite Hl in H; cbn in H;
               rewrite ?lookup_insert_eq, ?Hs in H; cbn in H;
               by case_decide
           end
       | _ =>
           match goal with
           | |- context [SessionManager.cleanup_old_sessions ?a ?w1] =>
               destruct (cleanup_old_sessions_lookup a w1 sid) as [_ Hl];
               rewrite Hl; cbn;
               rewrite ?lookup_insert_eq, ?Hs; cbn;
               by rewrite decide_True
           end
       end.
Qed.

Lemma reaping_after_an_operation_witness :
  (sessions (SessionManager.cleanup_old_sessions 3600
               (SessionManager.add_message "old" "user" "hi" reaper_world).2).2
     !! "old" = None <-> 5000 - 5000 > 3600)
  /\ (sessions (SessionManager.cleanup_old_sessions 3600
                  (SessionManager.change_mode "old" "debate" None reaper_world).2).2
        !! "old" = None <-> 5000 - 5000 > 3600)
  /\ (sessions (SessionManager.cleanup_old_sessions 3600
                  (SessionManager.update_mode_data "old" ∅ reaper_world).2).2
        !! "old" = None <-> 5000 - 1399 > 3600)
  /\ (sessions (SessionManager.cleanup_old_sessions 3600
                  (SessionManager.get_session "old" reaper_world).2).2
        !! "old" = None <-> 5000 - 1399 > 3600).
Proof.
  apply (reaping_after_an_operation "old" reaper_world
           (Session "old" "chat" [] ∅ 1000 1399) "user" "hi" "debate" None ∅ 3600).
  reflexivity.
Defined.
